(** * trainer.py: the U-Net training script, as a shallow embedding

    The script is glue over collaborators that live outside it (the torch
    runtime, the U-Net model, the losses of [utils.loss], the loader of
    [utils.data], the workspace helpers of [utils.misc], TensorBoard's
    writer).  The embedding keeps the script's control flow and data flow
    as written and takes the collaborators as an interface:

    - every call that leaves the script is recorded, in program order, as
      an [event];
    - the values the collaborators return come from the operations of the
      class [Torch];
    - Python floats are IEEE binary64 numbers, modelled by primitive floats;
    - Python exceptions that the script itself can provoke are results
      [Raise e]; a collaborator call is taken to return. *)

From Stdlib Require Import ZArith List String Lia.
From Stdlib Require Import Floats.PrimFloat.
From stdpp Require Import gmap strings.
Import ListNotations.

Local Open Scope Z_scope.

(** ** Python-level data *)

(** The exceptions the script can provoke by itself. *)
Inductive exn : Type :=
| ZeroDivisionError      (* [epoch % save_every] with [save_every == 0] *)
| UnboundLocalError      (* a local read before its first assignment *)
| FileNotFoundError      (* [open] on a path that does not exist *)
| IsADirectoryError      (* [open] on a directory *)
| FileExistsError.       (* [os.makedirs] on a path held by a regular file *)

Inductive result (A : Type) : Type :=
| Ok (a : A)
| Raise (e : exn).
Arguments Ok {A} a.
Arguments Raise {A} e.

(** What [main] hands back: [return 0] on the two reported failures, and
    Python's implicit [None] when it runs off its end. *)
Inductive retval : Type :=
| RetNone
| RetInt (z : Z).

(** An f-string, kept as its pieces: literal text and formatted values. *)
Inductive piece : Type :=
| Lit (s : string)
| FmtStr (s : string)
| FmtInt (z : Z)
| FmtFloat (x : float).

(** The two loss objects [main] can select. *)
Inductive criterion : Type :=
| DiceLoss
| BCEWithLogitsLoss.

(** The [reduction] keyword of [torchvision.ops.sigmoid_focal_loss]. *)
Inductive reduction : Type :=
| ReduceNone
| ReduceMean
| ReduceSum.

(** [specs.json], parsed: the eight keys [main] reads, at the types the
    configuration file documents. *)
Record Specs : Type := {
  DataSource : string;
  LearningRate : float;
  Epochs : Z;
  SaveEvery : Z;
  BatchSize : Z;
  Debug : bool;
  NumDebug : Z;
  LossFunction : string
}.

(** ** Collaborators *)

(** The three generators the script seeds. *)
Record rngs (rng : Type) : Type := {
  np_random : rng;
  torch_cpu : rng;
  torch_cuda : rng
}.
Arguments np_random {rng} _.
Arguments torch_cpu {rng} _.
Arguments torch_cuda {rng} _.

(** One element of the loader: a dict with the keys ['image'] and ['mask']. *)
Record batch (tensor : Type) : Type := {
  image : tensor;
  mask : tensor
}.
Arguments image {tensor} _.
Arguments mask {tensor} _.

(** The torch runtime and the project modules imported by the script.
    Operations that may draw random numbers take the generators and
    return them advanced. *)
Class Torch : Type := {
  tensor : Type;
  net : Type;            (* the model: parameters, gradients, buffers *)
  optim : Type;          (* the optimizer's own state *)
  loader : Type;
  rng : Type;
  (* seeding a generator fixes its state *)
  rng_of_seed : Z -> rng;
  (* models.Unet2D_simple(channels, num_class=classes) *)
  Unet2D : Z -> Z -> rngs rng -> net * rngs rng;
  (* model.cuda() *)
  net_cuda : net -> net;
  (* torch.optim.Adam(model.parameters(), learning_rate) *)
  Adam : net -> float -> optim;
  (* utils.data.sk_loader(images, labels, batch_size, debug, num_debug) *)
  sk_loader : string -> string -> Z -> bool -> Z -> rngs rng -> loader * rngs rng;
  (* iterating the loader once: the batches of one epoch *)
  loader_iter : loader -> rngs rng -> list (batch tensor) * rngs rng;
  (* model.train(True) *)
  net_train : net -> net;
  (* optimizer.zero_grad(): clears the gradients of the model's parameters *)
  zero_grad : optim -> net -> net;
  (* tensor.cuda() *)
  tensor_cuda : tensor -> tensor;
  (* model(img) *)
  forward : net -> tensor -> rngs rng -> tensor * net * rngs rng;
  (* utils.loss.DiceLoss()(logits, mask) *)
  dice_loss_forward : tensor -> tensor -> tensor;
  (* torch.nn.BCEWithLogitsLoss()(logits, mask) *)
  bce_with_logits_forward : tensor -> tensor -> tensor;
  (* utils.loss.WeightedFocalLoss()(logits, mask): imported by the script *)
  weighted_focal_loss_forward : tensor -> tensor -> tensor;
  (* torchvision.ops.sigmoid_focal_loss(logits, mask, reduction=...) *)
  sigmoid_focal_loss : tensor -> tensor -> reduction -> tensor;
  (* tensor + tensor *)
  tensor_add : tensor -> tensor -> tensor;
  (* loss.backward(): accumulates into the model's gradients *)
  backward : tensor -> net -> net;
  (* optimizer.step() *)
  optimizer_step : optim -> net -> optim * net;
  (* tensor.item() *)
  item : tensor -> float
}.

(** [utils.misc], imported as [workspace]: the two subdirectory names. *)
Class Workspace : Type := {
  checkpoint_subdir : string;
  evaluation_subdir : string
}.

(** ** Events: the calls that leave the script *)

Inductive event : Type :=
| EvNumpySeed (seed : Z)
| EvTorchSeed (seed : Z)
| EvCudaSeed (seed : Z)
| EvPrint (msg : list piece)
| EvMakedirs (path : string)
| EvOpen (path : string)
| EvUnet2D (channels classes : Z)
| EvNetCuda
| EvAdam (lr : float)
| EvNewCriterion (c : criterion)
| EvSkLoader (images labels : string) (batch_size : Z) (debug : bool) (num_debug : Z)
| EvSummaryWriter (log_dir : string)
| EvNetTrain
| EvZeroGrad
| EvTensorCuda
| EvForward
| EvCriterion (c : criterion)
| EvSigmoidFocalLoss (r : reduction)
| EvTensorAdd
| EvBackward
| EvOptimizerStep
| EvItem
| EvAddScalar (tag : string) (value : float) (global_step : Z)
| EvSaveLatest (exp_dir : string) (epoch : Z)
| EvSaveCheckpoint (exp_dir : string) (epoch : Z)
| EvFlush.

(** ** A state, error and trace monad *)

(** A computation over a state [S]: its result, the state it leaves, and
    the events it produced, oldest first.  After [Raise] nothing more runs. *)
Definition M (S A : Type) : Type := S -> result A * S * list event.

Definition ret {S A} (a : A) : M S A := fun s => (Ok a, s, []).

Definition bind {S A B} (m : M S A) (k : A -> M S B) : M S B :=
  fun s =>
    match m s with
    | (Ok a, s1, t1) =>
        match k a s1 with
        | (r, s2, t2) => (r, s2, t1 ++ t2)
        end
    | (Raise e, s1, t1) => (Raise e, s1, t1)
    end.

Definition raise {S A} (e : exn) : M S A := fun s => (Raise e, s, []).
Definition emit {S} (ev : event) : M S unit := fun s => (Ok tt, s, [ev]).
Definition get {S} : M S S := fun s => (Ok s, s, []).
Definition put {S} (s : S) : M S unit := fun _ => (Ok tt, s, []).

Declare Scope py_scope.
Delimit Scope py_scope with py.
Notation "x <- c ;; k" := (bind c (fun x => k))
  (at level 100, c at next level, k at level 200, right associativity) : py_scope.
Notation "c ;; k" := (bind c (fun _ => k))
  (at level 100, k at level 200, right associativity) : py_scope.
Local Open Scope py_scope.

Definition res {S A} (x : result A * S * list event) : result A := fst (fst x).
Definition final {S A} (x : result A * S * list event) : S := snd (fst x).
Definition emitted {S A} (x : result A * S * list event) : list event := snd x.

(** [for x in xs: body(x)] *)
Fixpoint for_each {S X} (xs : list X) (body : X -> M S unit) : M S unit :=
  match xs with
  | [] => ret tt
  | x :: xs' => body x ;; for_each xs' body
  end.

(** [range(lo, hi)] *)
Definition range (lo hi : Z) : list Z :=
  map (fun i => lo + Z.of_nat i) (seq 0 (Z.to_nat (hi - lo))).

(** [a % b] on Python ints: the remainder takes the sign of the divisor,
    as [Z.modulo] does; a zero divisor raises. *)
Definition py_mod {S} (a b : Z) : M S Z :=
  if b =? 0 then raise ZeroDivisionError else ret (a mod b).

(** [posixpath.join(a, b)] *)
Definition os_path_join (a b : string) : string :=
  if String.prefix "/" b then b
  else if (String.eqb a "" || String.eqb (substring (String.length a - 1)%nat 1 a) "/")%bool
       then a +:+ b
       else a +:+ "/" +:+ b.

(** ** The script *)

Section Trainer.
Context {T : Torch} {W : Workspace}.

(** What the script can see of the machine: the directories and the
    configuration files of the file system (by path, as written), and the
    three random generators. *)
Record world : Type := {
  w_dirs : gset string;
  w_files : gmap string Specs;
  w_rng : rngs rng
}.

Definition with_rng (r : rngs rng) (w : world) : world :=
  {| w_dirs := w_dirs w; w_files := w_files w; w_rng := r |}.

Definition with_dirs (d : gset string) (w : world) : world :=
  {| w_dirs := d; w_files := w_files w; w_rng := w_rng w |}.

(** The objects and locals of one call of [train] that outlive a loop
    iteration: the model and the optimizer, which are mutated in place, and
    the three accumulators, which are function-scoped and unbound on entry.
    The other locals are assigned before every use in straight-line code
    and are plain bindings below. *)
Record frame : Type := {
  model : net;
  optimizer : optim;
  running_loss : option float;
  dice_loss : option float;
  focal_loss : option float
}.

Definition with_model (m : net) (f : frame) : frame :=
  {| model := m; optimizer := optimizer f; running_loss := running_loss f;
     dice_loss := dice_loss f; focal_loss := focal_loss f |}.

Definition with_optimizer (o : optim) (f : frame) : frame :=
  {| model := model f; optimizer := o; running_loss := running_loss f;
     dice_loss := dice_loss f; focal_loss := focal_loss f |}.

Definition with_running_loss (x : float) (f : frame) : frame :=
  {| model := model f; optimizer := optimizer f; running_loss := Some x;
     dice_loss := dice_loss f; focal_loss := focal_loss f |}.

Definition with_dice_loss (x : float) (f : frame) : frame :=
  {| model := model f; optimizer := optimizer f; running_loss := running_loss f;
     dice_loss := Some x; focal_loss := focal_loss f |}.

Definition with_focal_loss (x : float) (f : frame) : frame :=
  {| model := model f; optimizer := optimizer f; running_loss := running_loss f;
     dice_loss := dice_loss f; focal_loss := Some x |}.

Definition tstate : Type := world * frame.

(** *** Primitive calls of [main] *)

Definition np_random_seed (seed : Z) : M world unit :=
  emit (EvNumpySeed seed) ;;
  w <- get ;;
  put (with_rng {| np_random := rng_of_seed seed;
                   torch_cpu := torch_cpu (w_rng w);
                   torch_cuda := torch_cuda (w_rng w) |} w).

Definition torch_manual_seed (seed : Z) : M world unit :=
  emit (EvTorchSeed seed) ;;
  w <- get ;;
  put (with_rng {| np_random := np_random (w_rng w);
                   torch_cpu := rng_of_seed seed;
                   torch_cuda := torch_cuda (w_rng w) |} w).

Definition torch_cuda_manual_seed (seed : Z) : M world unit :=
  emit (EvCudaSeed seed) ;;
  w <- get ;;
  put (with_rng {| np_random := np_random (w_rng w);
                   torch_cpu := torch_cpu (w_rng w);
                   torch_cuda := rng_of_seed seed |} w).

Definition print {S} (msg : list piece) : M S unit := emit (EvPrint msg).

Definition os_path_isdir (path : string) : M world bool :=
  w <- get ;; ret (bool_decide (path ∈ w_dirs w)).

(** [os.makedirs(path)]: the path must not be taken by a regular file. *)
Definition os_makedirs (path : string) : M world unit :=
  emit (EvMakedirs path) ;;
  w <- get ;;
  match w_files w !! path with
  | Some _ => raise FileExistsError
  | None => put (with_dirs ({[path]} ∪ w_dirs w) w)
  end.

(** [with open(path, "r") as f: specs = json.load(f)] *)
Definition load_specs (path : string) : M world Specs :=
  emit (EvOpen path) ;;
  w <- get ;;
  match w_files w !! path with
  | Some specs => ret specs
  | None =>
      if bool_decide (path ∈ w_dirs w) then raise IsADirectoryError
      else raise FileNotFoundError
  end.

(** A collaborator that may draw from the generators. *)
Definition drawing {A} (f : rngs rng -> A * rngs rng) : M world A :=
  w <- get ;;
  match f (w_rng w) with
  | (a, r) => put (with_rng r w) ;; ret a
  end.

Definition new_Unet2D (channels classes : Z) : M world net :=
  emit (EvUnet2D channels classes) ;; drawing (Unet2D channels classes).

Definition model_cuda (m : net) : M world net :=
  emit EvNetCuda ;; ret (net_cuda m).

Definition new_Adam (m : net) (lr : float) : M world optim :=
  emit (EvAdam lr) ;; ret (Adam m lr).

Definition new_criterion (c : criterion) : M world criterion :=
  emit (EvNewCriterion c) ;; ret c.

Definition new_sk_loader (images labels : string) (batch_size : Z)
    (debug : bool) (num_debug : Z) : M world loader :=
  emit (EvSkLoader images labels batch_size debug num_debug) ;;
  drawing (sk_loader images labels batch_size debug num_debug).

Definition new_SummaryWriter (log_dir : string) : M world unit :=
  emit (EvSummaryWriter log_dir).

(** *** Primitive calls of [train] *)

Definition in_world {A} (m : M world A) : M tstate A :=
  fun s =>
    match m (fst s) with
    | (r, w, t) => (r, (w, snd s), t)
    end.

Definition read_frame {A} (g : frame -> A) : M tstate A :=
  s <- get ;; ret (g (snd s)).

Definition modify_frame (g : frame -> frame) : M tstate unit :=
  s <- get ;; put (fst s, g (snd s)).

(** Reading a local raises when it was never assigned. *)
Definition read_local (g : frame -> option float) : M tstate float :=
  v <- read_frame g ;;
  match v with
  | Some x => ret x
  | None => raise UnboundLocalError
  end.

Definition model_train : M tstate unit :=
  emit EvNetTrain ;; modify_frame (fun f => with_model (net_train (model f)) f).

Definition optimizer_zero_grad : M tstate unit :=
  emit EvZeroGrad ;;
  modify_frame (fun f => with_model (zero_grad (optimizer f) (model f)) f).

Definition cuda (t : tensor) : M tstate tensor :=
  emit EvTensorCuda ;; ret (tensor_cuda t).

Definition model_call (img : tensor) : M tstate tensor :=
  emit EvForward ;;
  s <- get ;;
  match forward (model (snd s)) img (w_rng (fst s)) with
  | (logits, m, r) => put (with_rng r (fst s), with_model m (snd s)) ;; ret logits
  end.

(** [loss_fn(logits, mask)] for the criterion object that was passed in. *)
Definition loss_fn_forward (loss_fn : criterion) (logits msk : tensor) : tensor :=
  match loss_fn with
  | DiceLoss => dice_loss_forward logits msk
  | BCEWithLogitsLoss => bce_with_logits_forward logits msk
  end.

Definition loss_fn_call (loss_fn : criterion) (logits msk : tensor) : M tstate tensor :=
  emit (EvCriterion loss_fn) ;; ret (loss_fn_forward loss_fn logits msk).

Definition sigmoid_focal_loss_call (logits msk : tensor) (r : reduction) : M tstate tensor :=
  emit (EvSigmoidFocalLoss r) ;; ret (sigmoid_focal_loss logits msk r).

Definition tensor_add_call (a b : tensor) : M tstate tensor :=
  emit EvTensorAdd ;; ret (tensor_add a b).

Definition loss_backward (loss : tensor) : M tstate unit :=
  emit EvBackward ;;
  modify_frame (fun f => with_model (backward loss (model f)) f).

Definition optimizer_step_call : M tstate unit :=
  emit EvOptimizerStep ;;
  modify_frame (fun f =>
    match optimizer_step (optimizer f) (model f) with
    | (o, m) => with_optimizer o (with_model m f)
    end).

Definition tensor_item (t : tensor) : M tstate float :=
  emit EvItem ;; ret (item t).

Definition iterate (train_loader : loader) : M tstate (list (batch tensor)) :=
  in_world (drawing (loader_iter train_loader)).

Definition writer_add_scalar (tag : string) (value : float) (global_step : Z) : M tstate unit :=
  emit (EvAddScalar tag value global_step).

Definition writer_flush : M tstate unit := emit EvFlush.

Definition save_latest (exp_dir : string) (epoch : Z) : M tstate unit :=
  emit (EvSaveLatest exp_dir epoch).

Definition save_checkpoint (exp_dir : string) (epoch : Z) : M tstate unit :=
  emit (EvSaveCheckpoint exp_dir epoch).

(** *** [train] *)

(** [acc += t.item()]: the local is loaded first, then [item] is called. *)
Definition add_item (g : frame -> option float) (set : float -> frame -> frame)
    (t : tensor) : M tstate unit :=
  acc <- read_local g ;;
  v <- tensor_item t ;;
  modify_frame (set (acc + v)%float).

(** The body of [for data in tqdm(train_loader)]; [tqdm] hands on the
    elements of what it wraps. *)
Definition train_batch (loss_fn : criterion) (data : batch tensor) : M tstate unit :=
  optimizer_zero_grad ;;
  img <- cuda (image data) ;;
  mask <- cuda (mask data) ;;
  inp_logits <- model_call img ;;
  loss1 <- loss_fn_call loss_fn inp_logits mask ;;
  loss2 <- sigmoid_focal_loss_call inp_logits mask ReduceMean ;;
  loss <- tensor_add_call loss1 loss2 ;;
  loss_backward loss ;;
  optimizer_step_call ;;
  add_item running_loss with_running_loss loss ;;
  add_item dice_loss with_dice_loss loss1 ;;
  add_item focal_loss with_focal_loss loss2.

(** The body of [for epoch in tqdm(range(1, epochs+1))]; as above, [tqdm]
    only hands the epochs on. *)
Definition train_epoch (train_loader : loader) (loss_fn : criterion)
    (exp_dir : string) (save_every : Z) (epoch : Z) : M tstate unit :=
  model_train ;;
  modify_frame (with_running_loss 0%float) ;;
  modify_frame (with_dice_loss 0%float) ;;
  modify_frame (with_focal_loss 0%float) ;;
  batches <- iterate train_loader ;;
  for_each batches (train_batch loss_fn) ;;
  v <- read_local running_loss ;;
  writer_add_scalar "Loss/overall" v epoch ;;
  v <- read_local dice_loss ;;
  writer_add_scalar "Loss/dice" v epoch ;;
  v <- read_local focal_loss ;;
  writer_add_scalar "Loss/focal" v epoch ;;
  v <- read_local running_loss ;;
  print [Lit "Epoch:"; FmtInt epoch; Lit " | Running Loss:"; FmtFloat v] ;;
  save_latest exp_dir epoch ;;
  r <- py_mod epoch save_every ;;
  if r =? 0 then save_checkpoint exp_dir epoch else ret tt.

Definition train_loop (train_loader : loader) (loss_fn : criterion) (epochs : Z)
    (exp_dir : string) (save_every : Z) : M tstate unit :=
  for_each (range 1 (epochs + 1)) (train_epoch train_loader loss_fn exp_dir save_every) ;;
  writer_flush.

(** The frame of a call [train(train_loader, model, optimizer, ...)]. *)
Definition enter (model : net) (optimizer : optim) : frame :=
  {| model := model; optimizer := optimizer;
     running_loss := None; dice_loss := None; focal_loss := None |}.

Definition train (train_loader : loader) (model : net) (optimizer : optim)
    (loss_fn : criterion) (epochs : Z) (exp_dir : string) (save_every : Z)
    : M world unit :=
  fun w =>
    match train_loop train_loader loss_fn epochs exp_dir save_every
            (w, enter model optimizer) with
    | (r, s, t) => (r, fst s, t)
    end.

(** *** [main] *)

(** The tail of [main], from the construction of the model on. *)
Definition main_run (experiment_dir : string) (specs : Specs) : M world retval :=
  let train_data_dir := DataSource specs in
  let learning_rate := LearningRate specs in
  let num_epochs := Epochs specs in
  let save_epoch := SaveEvery specs in
  let batch_size := BatchSize specs in
  let if_debug := Debug specs in
  let n_debug := NumDebug specs in
  let loss_func := LossFunction specs in
  print [Lit "Learning Rate:"; FmtFloat learning_rate; Lit " | Epochs:";
         FmtInt num_epochs; Lit " | BatchSize:"; FmtInt batch_size] ;;
  print [Lit "Training data dir: "; FmtStr train_data_dir] ;;
  let channels := 1 in
  let classes := 1 in
  model <- new_Unet2D channels classes ;;
  model <- model_cuda model ;;
  optimizer <- new_Adam model learning_rate ;;
  let continue (criterion : criterion) : M world retval :=
    let trn_images_dir := os_path_join train_data_dir "images" in
    let trn_labels_dir := os_path_join train_data_dir "labels" in
    train_loader <- new_sk_loader trn_images_dir trn_labels_dir
                      batch_size if_debug n_debug ;;
    print [Lit "Begin Training......."] ;;
    new_SummaryWriter experiment_dir ;;
    train train_loader model optimizer criterion num_epochs experiment_dir save_epoch ;;
    ret RetNone in
  if String.eqb loss_func "Dice" then
    print [Lit "Using the DiceLoss as the loss function"] ;;
    criterion <- new_criterion DiceLoss ;;
    continue criterion
  else if String.eqb loss_func "BCE" then
    print [Lit "Using the BCEWithLogits as the loss function"] ;;
    criterion <- new_criterion BCEWithLogitsLoss ;;
    continue criterion
  else
    print [Lit "Loss function specified in experiment specs.json is not recognized!"] ;;
    ret (RetInt 0).

Definition main (exp_dir : string) : M world retval :=
  np_random_seed 2020 ;;
  torch_manual_seed 2020 ;;
  torch_cuda_manual_seed 2020 ;;
  isdir <- os_path_isdir exp_dir ;;
  if negb isdir then
    print [Lit "[ERROR] Experiment dir "; FmtStr exp_dir; Lit " does not exist!"] ;;
    ret (RetInt 0)
  else
    let experiment_dir := exp_dir in
    let checkpt_dir := os_path_join experiment_dir checkpoint_subdir in
    let eval_dir := os_path_join experiment_dir evaluation_subdir in
    isdir <- os_path_isdir checkpt_dir ;;
    (if negb isdir then os_makedirs checkpt_dir else ret tt) ;;
    isdir <- os_path_isdir eval_dir ;;
    (if negb isdir then os_makedirs eval_dir else ret tt) ;;
    specs <- load_specs (os_path_join experiment_dir "specs.json") ;;
    main_run experiment_dir specs.

End Trainer.

(** ** The data flow of [train], event by event

    What [train] computes, read off the same lines as functions of the
    objects it mutates: the reference the runs of the monadic program are
    compared with. *)

Section Flow.
Context {T : Torch}.

(** The objects a step mutates or draws from. *)
Record objects : Type := {
  the_model : net;
  the_optimizer : optim;
  the_rng : rngs rng
}.

(** The three running sums reported per epoch. *)
Record sums : Type := {
  overall : float;
  dice : float;
  focal : float
}.

Definition zero_sums : sums :=
  {| overall := 0%float; dice := 0%float; focal := 0%float |}.

(** The tensors of one step and the objects it leaves. *)
Record step_record : Type := {
  step_logits : tensor;
  step_mask : tensor;
  step_loss1 : tensor;
  step_loss2 : tensor;
  step_loss : tensor;           (* the tensor [backward] is called on *)
  step_after : objects
}.

Definition step_flow (loss_fn : criterion) (data : batch tensor) (x : objects)
    : step_record :=
  let m0 := zero_grad (the_optimizer x) (the_model x) in
  let img := tensor_cuda (image data) in
  let msk := tensor_cuda (mask data) in
  match forward m0 img (the_rng x) with
  | (inp_logits, m1, r1) =>
      let loss1 := loss_fn_forward loss_fn inp_logits msk in
      let loss2 := sigmoid_focal_loss inp_logits msk ReduceMean in
      let loss := tensor_add loss1 loss2 in
      let m2 := backward loss m1 in
      match optimizer_step (the_optimizer x) m2 with
      | (o3, m3) =>
          {| step_logits := inp_logits; step_mask := msk;
             step_loss1 := loss1; step_loss2 := loss2; step_loss := loss;
             step_after := {| the_model := m3; the_optimizer := o3; the_rng := r1 |} |}
      end
  end.

Definition add_step (acc : sums) (s : step_record) : sums :=
  {| overall := overall acc + item (step_loss s);
     dice := dice acc + item (step_loss1 s);
     focal := focal acc + item (step_loss2 s) |}%float.

(** The batches of an epoch, in order. *)
Fixpoint batches_flow (loss_fn : criterion) (batches : list (batch tensor))
    (x : objects) (acc : sums) : objects * sums :=
  match batches with
  | [] => (x, acc)
  | data :: rest =>
      let s := step_flow loss_fn data x in
      batches_flow loss_fn rest (step_after s) (add_step acc s)
  end.

(** The steps of those batches, in order. *)
Fixpoint steps_flow (loss_fn : criterion) (batches : list (batch tensor))
    (x : objects) : list step_record :=
  match batches with
  | [] => []
  | data :: rest =>
      let s := step_flow loss_fn data x in
      s :: steps_flow loss_fn rest (step_after s)
  end.

(** The batches the loader yields for the epoch that starts from [x]. *)
Definition epoch_batches (train_loader : loader) (x : objects) : list (batch tensor) :=
  fst (loader_iter train_loader (the_rng x)).

(** One epoch from the objects [x]: the objects it leaves and the sums it
    reports.  The sums start from zero. *)
Definition epoch_flow (train_loader : loader) (loss_fn : criterion) (x : objects)
    : objects * sums :=
  match loader_iter train_loader (the_rng x) with
  | (batches, r) =>
      batches_flow loss_fn batches
        {| the_model := net_train (the_model x);
           the_optimizer := the_optimizer x; the_rng := r |}
        zero_sums
  end.

(** The steps of the epoch that starts from [x]. *)
Definition epoch_steps (train_loader : loader) (loss_fn : criterion) (x : objects)
    : list step_record :=
  match loader_iter train_loader (the_rng x) with
  | (batches, r) =>
      steps_flow loss_fn batches
        {| the_model := net_train (the_model x);
           the_optimizer := the_optimizer x; the_rng := r |}
  end.

(** The objects after the epochs [es], run in order. *)
Fixpoint epochs_flow {E} (train_loader : loader) (loss_fn : criterion)
    (es : list E) (x : objects) : objects :=
  match es with
  | [] => x
  | _ :: rest => epochs_flow train_loader loss_fn rest (fst (epoch_flow train_loader loss_fn x))
  end.

(** The events of one step. *)
Definition step_events (loss_fn : criterion) : list event :=
  [ EvZeroGrad; EvTensorCuda; EvTensorCuda; EvForward;
    EvCriterion loss_fn; EvSigmoidFocalLoss ReduceMean; EvTensorAdd;
    EvBackward; EvOptimizerStep; EvItem; EvItem; EvItem ].

(** The three metrics of an epoch. *)
Definition report_events (acc : sums) (epoch : Z) : list event :=
  [ EvAddScalar "Loss/overall" (overall acc) epoch;
    EvAddScalar "Loss/dice" (dice acc) epoch;
    EvAddScalar "Loss/focal" (focal acc) epoch ].

(** The snapshots at the end of an epoch. *)
Definition save_events (exp_dir : string) (save_every epoch : Z) : list event :=
  EvSaveLatest exp_dir epoch ::
  (if save_every =? 0 then []
   else if epoch mod save_every =? 0 then [EvSaveCheckpoint exp_dir epoch] else []).

(** The events of the epoch numbered [epoch] that starts from [x]. *)
Definition epoch_events (train_loader : loader) (loss_fn : criterion)
    (exp_dir : string) (save_every epoch : Z) (x : objects) : list event :=
  let acc := snd (epoch_flow train_loader loss_fn x) in
  EvNetTrain ::
  flat_map (fun _ => step_events loss_fn) (epoch_batches train_loader x) ++
  report_events acc epoch ++
  EvPrint [Lit "Epoch:"; FmtInt epoch; Lit " | Running Loss:"; FmtFloat (overall acc)] ::
  save_events exp_dir save_every epoch.

(** The events of the epochs [es], run in order from [x]. *)
Fixpoint epochs_events (train_loader : loader) (loss_fn : criterion)
    (exp_dir : string) (save_every : Z) (es : list Z) (x : objects) : list event :=
  match es with
  | [] => []
  | epoch :: rest =>
      epoch_events train_loader loss_fn exp_dir save_every epoch x ++
      epochs_events train_loader loss_fn exp_dir save_every rest
        (fst (epoch_flow train_loader loss_fn x))
  end.

(** Event classes. *)
Definition is_flush (ev : event) : bool :=
  match ev with EvFlush => true | _ => false end.

Definition is_save (ev : event) : bool :=
  match ev with EvSaveLatest _ _ | EvSaveCheckpoint _ _ => true | _ => false end.

Definition is_print (ev : event) : bool :=
  match ev with EvPrint _ => true | _ => false end.

Definition is_step_event (ev : event) : bool :=
  match ev with
  | EvZeroGrad | EvTensorCuda | EvForward | EvCriterion _ | EvSigmoidFocalLoss _
  | EvTensorAdd | EvBackward | EvOptimizerStep | EvItem => true
  | _ => false
  end.

(** Evaluations of a loss. *)
Definition is_loss_eval (ev : event) : bool :=
  match ev with EvCriterion _ | EvSigmoidFocalLoss _ => true | _ => false end.

(** Constructions of the model, the optimizer or the data loader. *)
Definition is_construction (ev : event) : bool :=
  match ev with EvUnet2D _ _ | EvAdam _ | EvSkLoader _ _ _ _ _ => true | _ => false end.

(** Everything [main] does to set a run up after its first check:
    creating directories, reading the configuration, building objects,
    training. *)
Definition is_setup (ev : event) : bool :=
  match ev with
  | EvNumpySeed _ | EvTorchSeed _ | EvCudaSeed _ | EvPrint _ => false
  | _ => true
  end.

(** The metric events logged under [tag] at step [epoch]. *)
Definition is_scalar_at (tag : string) (epoch : Z) (ev : event) : bool :=
  match ev with
  | EvAddScalar tag' _ step => (String.eqb tag' tag && (step =? epoch))%bool
  | _ => false
  end.

Definition is_scalar_of (epoch : Z) (ev : event) : bool :=
  match ev with
  | EvAddScalar _ _ step => step =? epoch
  | _ => false
  end.

(** The objects held by a state of [train]. *)
Definition objects_of (w : world) (f : frame) : objects :=
  {| the_model := model f; the_optimizer := optimizer f; the_rng := w_rng w |}.

(** The frame that holds the objects [x] and the sums [acc]. *)
Definition frame_of (x : objects) (acc : sums) : frame :=
  {| model := the_model x; optimizer := the_optimizer x;
     running_loss := Some (overall acc); dice_loss := Some (dice acc);
     focal_loss := Some (focal acc) |}.

Definition holds_sums (f : frame) (acc : sums) : Prop :=
  running_loss f = Some (overall acc) /\
  dice_loss f = Some (dice acc) /\
  focal_loss f = Some (focal acc).

(** The objects [train] starts from. *)
Definition start (m : net) (o : optim) (w : world) : objects :=
  {| the_model := m; the_optimizer := o; the_rng := w_rng w |}.

(** The combined objective as the specification words it: the criterion's
    loss, the weighted focal loss and the framework's focal loss, added. *)
Definition three_term_loss (loss_fn : criterion) (logits msk : tensor) : tensor :=
  tensor_add
    (tensor_add (loss_fn_forward loss_fn logits msk)
                (weighted_focal_loss_forward logits msk))
    (sigmoid_focal_loss logits msk ReduceMean).

(** The combined objective as the loop computes it. *)
Definition two_term_loss (loss_fn : criterion) (logits msk : tensor) : tensor :=
  tensor_add (loss_fn_forward loss_fn logits msk)
             (sigmoid_focal_loss logits msk ReduceMean).

(** "The loss that is backpropagated in a step is [combined]": the model
    the step leaves is the one [optimizer.step()] makes of the gradients
    that [backward] accumulates from [combined] of the step's logits and
    mask. *)
Definition backpropagates (combined : criterion -> tensor -> tensor -> tensor)
    (loss_fn : criterion) (data : batch tensor) (w : world) (f : frame) : Prop :=
  let fw := forward (zero_grad (optimizer f) (model f))
                    (tensor_cuda (image data)) (w_rng w) in
  let loss := combined loss_fn (fst (fst fw)) (tensor_cuda (mask data)) in
  model (snd (final (train_batch loss_fn data (w, f)))) =
    snd (optimizer_step (optimizer f) (backward loss (snd (fst fw)))).

(** "The run prints an error and returns rather than raising." *)
Definition fails_fast {A} (run : result A * world * list event) : Prop :=
  (exists v, res run = Ok v) /\ (exists msg, In (EvPrint msg) (emitted run)).

(** "The run does not attempt to construct a model, an optimizer or a
    data loader." *)
Definition builds_nothing {A} (run : result A * world * list event) : Prop :=
  List.filter is_construction (emitted run) = [].

End Flow.

(** ** The data flow of [main] *)

Section MainFlow.
Context {T : Torch} {W : Workspace}.

(** The generators after the three seeding calls. *)
Definition seeded : rngs rng :=
  {| np_random := rng_of_seed 2020;
     torch_cpu := rng_of_seed 2020;
     torch_cuda := rng_of_seed 2020 |}.

Definition seed_events : list event :=
  [EvNumpySeed 2020; EvTorchSeed 2020; EvCudaSeed 2020].

(** The directories after [main] has made sure of its two subdirectories. *)
Definition dirs_after_setup (exp_dir : string) (d : gset string) : gset string :=
  let d1 := if bool_decide (os_path_join exp_dir checkpoint_subdir ∈ d) then d
            else {[os_path_join exp_dir checkpoint_subdir]} ∪ d in
  if bool_decide (os_path_join exp_dir evaluation_subdir ∈ d1) then d1
  else {[os_path_join exp_dir evaluation_subdir]} ∪ d1.

(** The [os.makedirs] calls that takes. *)
Definition setup_events (exp_dir : string) (d : gset string) : list event :=
  let ckpt := os_path_join exp_dir checkpoint_subdir in
  let d1 := if bool_decide (ckpt ∈ d) then d else {[ckpt]} ∪ d in
  (if bool_decide (ckpt ∈ d) then [] else [EvMakedirs ckpt]) ++
  (if bool_decide (os_path_join exp_dir evaluation_subdir ∈ d1) then []
   else [EvMakedirs (os_path_join exp_dir evaluation_subdir)]).

(** The loader and the objects [main] hands to [train], from the
    generators it holds when it builds the model. *)
Definition main_objects (specs : Specs) (r : rngs rng) : loader * objects :=
  match Unet2D 1 1 r with
  | (m, r1) =>
      let model := net_cuda m in
      match sk_loader (os_path_join (DataSource specs) "images")
                      (os_path_join (DataSource specs) "labels")
                      (BatchSize specs) (Debug specs) (NumDebug specs) r1 with
      | (train_loader, r2) =>
          (train_loader,
           {| the_model := model;
              the_optimizer := Adam model (LearningRate specs);
              the_rng := r2 |})
      end
  end.

(** What [main] prints and builds between reading the configuration and
    looking at the loss name. *)
Definition build_events (specs : Specs) : list event :=
  [ EvPrint [Lit "Learning Rate:"; FmtFloat (LearningRate specs); Lit " | Epochs:";
             FmtInt (Epochs specs); Lit " | BatchSize:"; FmtInt (BatchSize specs)];
    EvPrint [Lit "Training data dir: "; FmtStr (DataSource specs)];
    EvUnet2D 1 1; EvNetCuda; EvAdam (LearningRate specs) ].

Definition unrecognized_message : event :=
  EvPrint [Lit "Loss function specified in experiment specs.json is not recognized!"].

End MainFlow.

(** ** Further readings of the events, and the script's last lines *)

Section Readings.
Context {T : Torch} {W : Workspace}.

Definition is_zero_grad (ev : event) : bool :=
  match ev with EvZeroGrad => true | _ => false end.

Definition is_forward (ev : event) : bool :=
  match ev with EvForward => true | _ => false end.

Definition is_backward (ev : event) : bool :=
  match ev with EvBackward => true | _ => false end.

Definition is_optimizer_step (ev : event) : bool :=
  match ev with EvOptimizerStep => true | _ => false end.

Definition is_item (ev : event) : bool :=
  match ev with EvItem => true | _ => false end.

Definition is_net_train (ev : event) : bool :=
  match ev with EvNetTrain => true | _ => false end.

Definition is_makedirs (ev : event) : bool :=
  match ev with EvMakedirs _ => true | _ => false end.

Definition is_checkpoint (ev : event) : bool :=
  match ev with EvSaveCheckpoint _ _ => true | _ => false end.

(** The calls only [train] makes (it also prints, as [main] does). *)
Definition is_training (ev : event) : bool :=
  match ev with
  | EvNetTrain | EvZeroGrad | EvTensorCuda | EvForward | EvCriterion _
  | EvSigmoidFocalLoss _ | EvTensorAdd | EvBackward | EvOptimizerStep | EvItem
  | EvAddScalar _ _ _ | EvSaveLatest _ _ | EvSaveCheckpoint _ _ | EvFlush => true
  | _ => false
  end.

(** The criterion an event names, if it constructs or evaluates one. *)
Definition criterion_of (ev : event) : list criterion :=
  match ev with
  | EvNewCriterion c | EvCriterion c => [c]
  | _ => []
  end.

(** The (step, value) pairs logged under "Loss/overall". *)
Definition logged_overall (ev : event) : list (Z * float) :=
  match ev with
  | EvAddScalar tag value step =>
      if String.eqb tag "Loss/overall" then [(step, value)] else []
  | _ => []
  end.

(** The (epoch, value) pairs of the lines [train] prints. *)
Definition printed_running_loss (ev : event) : list (Z * float) :=
  match ev with
  | EvPrint [Lit _; FmtInt epoch; Lit _; FmtFloat value] => [(epoch, value)]
  | _ => []
  end.

(** The number of batches the loader yields over the epochs [es]. *)
Fixpoint batches_seen {E} (train_loader : loader) (loss_fn : criterion)
    (es : list E) (x : objects) : nat :=
  match es with
  | [] => 0
  | _ :: rest =>
      (length (epoch_batches train_loader x) +
       batches_seen train_loader loss_fn rest (fst (epoch_flow train_loader loss_fn x)))%nat
  end.

(** The loss object [main] picks for a loss name. *)
Definition select_criterion (loss_func : string) : option criterion :=
  if String.eqb loss_func "Dice" then Some DiceLoss
  else if String.eqb loss_func "BCE" then Some BCEWithLogitsLoss
  else None.

(** What [main] prints and builds when it picks [c]. *)
Definition selection_events (c : criterion) : list event :=
  [ EvPrint [Lit match c with
                 | DiceLoss => "Using the DiceLoss as the loss function"
                 | BCEWithLogitsLoss => "Using the BCEWithLogits as the loss function"
                 end];
    EvNewCriterion c ].

(** What [main] builds and prints between picking the loss and training. *)
Definition launch_events (exp_dir : string) (specs : Specs) : list event :=
  [ EvSkLoader (os_path_join (DataSource specs) "images")
               (os_path_join (DataSource specs) "labels")
               (BatchSize specs) (Debug specs) (NumDebug specs);
    EvPrint [Lit "Begin Training......."];
    EvSummaryWriter exp_dir ].

(** The [__main__] block, after [argparse] has produced [args.exp_dir]:
    it calls [main(args)] and drops what [main] returns; the interpreter
    exits with status 0 when the call returns and with status 1 when an
    exception escapes. *)
Definition script (args_exp_dir : string) (w : world) : Z * world * list event :=
  match main args_exp_dir w with
  | (Ok _, w1, t) => (0, w1, t)
  | (Raise _, w1, t) => (1, w1, t)
  end.

(** In a list of events, every [save_checkpoint] comes directly after the
    [save_latest] of the same directory and epoch. *)
Definition checkpoint_follows_latest (t : list event) : Prop :=
  forall pre post d epoch,
    t = pre ++ EvSaveCheckpoint d epoch :: post ->
    exists pre', pre = pre' ++ [EvSaveLatest d epoch].

End Readings.

(** ** A small concrete framework

    Scalar tensors, a one-weight model and generators that count their
    draws: enough to run [train] and [main] on concrete inputs. *)

Module Bench.

Definition tick_cpu (r : rngs Z) : rngs Z :=
  {| np_random := np_random r; torch_cpu := torch_cpu r + 1; torch_cuda := torch_cuda r |}.

Definition tick_cuda (r : rngs Z) : rngs Z :=
  {| np_random := np_random r; torch_cpu := torch_cpu r; torch_cuda := torch_cuda r + 1 |}.

Definition samples : list (batch float) :=
  [ {| image := 1%float; mask := 1%float |};
    {| image := 2%float; mask := 0%float |};
    {| image := 4%float; mask := 1%float |} ].

#[export] Instance torch : Torch := {|
  tensor := float;
  net := float * float;          (* weight, gradient *)
  optim := float;                (* learning rate *)
  loader := list (batch float);
  rng := Z;
  rng_of_seed := fun seed => seed;
  Unet2D := fun _ _ r =>
    ((if Z.even (torch_cpu r) then 0.5%float else 0.25%float, 0%float), tick_cpu r);
  net_cuda := fun m => m;
  Adam := fun _ lr => lr;
  sk_loader := fun _ _ _ debug num_debug r =>
    (if debug then firstn (Z.to_nat num_debug) samples else samples, r);
  loader_iter := fun l r => (if Z.even (torch_cpu r) then l else rev l, tick_cpu r);
  net_train := fun m => m;
  zero_grad := fun _ m => (fst m, 0%float);
  tensor_cuda := fun t => t;
  forward := fun m x r => ((fst m * x)%float, m, tick_cuda r);
  dice_loss_forward := fun l m => ((l - m) * (l - m))%float;
  bce_with_logits_forward := fun l m => abs (l - m);
  weighted_focal_loss_forward := fun l m => (abs (l - m) + 4)%float;
  sigmoid_focal_loss := fun l m r =>
    match r with
    | ReduceMean => (abs (l - m) / 2)%float
    | _ => abs (l - m)
    end;
  tensor_add := fun a b => (a + b)%float;
  backward := fun loss m => (fst m, (snd m + loss)%float);
  optimizer_step := fun lr m => (lr, ((fst m - lr * snd m)%float, snd m));
  item := fun t => t
|}.

#[export] Instance workspace : Workspace := {|
  checkpoint_subdir := "checkpoints";
  evaluation_subdir := "evaluation"
|}.

Definition specs (loss_func : string) : Specs := {|
  DataSource := "data";
  LearningRate := 0.5%float;
  Epochs := 2;
  SaveEvery := 2;
  BatchSize := 1;
  Debug := false;
  NumDebug := 0;
  LossFunction := loss_func
|}.

Definition unseeded : rngs Z := {| np_random := 11; torch_cpu := 12; torch_cuda := 13 |}.

(** A machine without the experiment directory. *)
Definition bare : world :=
  {| w_dirs := ∅; w_files := ∅; w_rng := unseeded |}.

(** The experiment directory exists and is empty. *)
Definition no_specs : world :=
  {| w_dirs := {["exp"]}; w_files := ∅; w_rng := unseeded |}.

(** The experiment directory holds a [specs.json] with the given loss name. *)
Definition prepared (loss_func : string) : world :=
  {| w_dirs := {["exp"]};
     w_files := {["exp/specs.json" := specs loss_func]};
     w_rng := unseeded |}.

(** The loader, the model and the optimizer of the concrete runs of [train]. *)
Definition bench_loader : loader := samples.
Definition bench_model : net := (0.5%float, 0%float).
Definition bench_optimizer : optim := 0.5%float.

(** A frame that holds them, with the three sums bound to zero. *)
Definition bench_frame : frame :=
  frame_of {| the_model := bench_model; the_optimizer := bench_optimizer;
              the_rng := unseeded |} zero_sums.

Definition bench_batch : batch tensor := {| image := 1%float; mask := 1%float |}.

(** The same machine as [prepared], with the generators in another state. *)
Definition prepared_elsewhere (loss_func : string) : world :=
  {| w_dirs := {["exp"]};
     w_files := {["exp/specs.json" := specs loss_func]};
     w_rng := {| np_random := 1; torch_cpu := 2; torch_cuda := 3 |} |}.

(** A configuration whose checkpoint interval is [save_every]. *)
Definition specs_every (save_every : Z) : Specs := {|
  DataSource := "data";
  LearningRate := 0.5%float;
  Epochs := 2;
  SaveEvery := save_every;
  BatchSize := 1;
  Debug := false;
  NumDebug := 0;
  LossFunction := "Dice"
|}.

Definition prepared_every (save_every : Z) : world :=
  {| w_dirs := {["exp"]};
     w_files := {["exp/specs.json" := specs_every save_every]};
     w_rng := unseeded |}.

(** A loader that yields no batch. *)
Definition empty_loader : loader := [].

(** A configuration that asks for no epoch. *)
Definition with_epochs_zero : Specs := {|
  DataSource := "data";
  LearningRate := 0.5%float;
  Epochs := 0;
  SaveEvery := 2;
  BatchSize := 1;
  Debug := false;
  NumDebug := 0;
  LossFunction := "BCE"
|}.

Definition prepared_no_epochs : world :=
  {| w_dirs := {["exp"]};
     w_files := {["exp/specs.json" := with_epochs_zero]};
     w_rng := unseeded |}.

(** A regular file sits where the checkpoint directory should go. *)
Definition blocked : world :=
  {| w_dirs := {["exp"]};
     w_files := {["exp/checkpoints" := specs "Dice"]};
     w_rng := unseeded |}.

End Bench.

(** ** Proof steps *)

(** Unfolding the primitive calls down to the monad. *)
Ltac unfold_calls :=
  unfold add_item, read_local, read_frame, modify_frame, model_train,
    optimizer_zero_grad, cuda, model_call, loss_fn_call,
    sigmoid_focal_loss_call, tensor_add_call, loss_backward,
    optimizer_step_call, tensor_item, iterate, in_world, drawing,
    writer_add_scalar, writer_flush, save_latest, save_checkpoint, print,
    py_mod, bind, ret, emit, get, put, raise.

Ltac unfold_main_calls :=
  unfold np_random_seed, torch_manual_seed, torch_cuda_manual_seed,
    os_path_isdir, os_makedirs, load_specs, new_Unet2D, model_cuda, new_Adam,
    new_criterion, new_sk_loader, new_SummaryWriter, drawing, print,
    bind, ret, emit, get, put, raise.

Ltac reduce_world :=
  cbn [w_dirs w_files w_rng with_rng with_dirs fst snd negb app
       np_random torch_cpu torch_cuda].

(** ** Ranges and event lists *)

Section Lists.

Lemma map_seq_shift {A} (f : nat -> A) (n : nat) : forall a,
  List.map f (seq a n) = List.map (fun i => f (a + i)%nat) (seq 0 n).
Proof.
  intros a. rewrite <- (List.map_map (fun i => (a + i)%nat) f).
  f_equal. revert a. induction n as [|n IH]; intros a; [reflexivity|].
  cbn [seq List.map]. rewrite Nat.add_0_r. f_equal.
  rewrite (IH (S a)), (IH 1%nat), List.map_map.
  apply List.map_ext. intros i. lia.
Qed.

Lemma in_range lo hi e : In e (range lo hi) <-> lo <= e < hi.
Proof.
  unfold range. rewrite List.in_map_iff. split.
  - intros (i & <- & Hi). apply List.in_seq in Hi. lia.
  - intros He. exists (Z.to_nat (e - lo)). split; [lia|].
    apply List.in_seq. lia.
Qed.

Lemma range_split lo mid hi :
  lo <= mid <= hi -> range lo hi = range lo mid ++ range mid hi.
Proof.
  intros H. unfold range.
  replace (Z.to_nat (hi - lo)) with (Z.to_nat (mid - lo) + Z.to_nat (hi - mid))%nat by lia.
  rewrite List.seq_app, List.map_app. f_equal.
  rewrite map_seq_shift. apply List.map_ext. intros i. lia.
Qed.

Lemma range_first lo hi : lo < hi -> range lo hi = lo :: range (lo + 1) hi.
Proof.
  intros H. rewrite (range_split lo (lo + 1) hi) by lia.
  unfold range at 1. replace (Z.to_nat (lo + 1 - lo)) with 1%nat by lia.
  cbn. f_equal. lia.
Qed.

Lemma filter_flat_map_const {A B} (p : B -> bool) (l : list B) (xs : list A) :
  List.filter p (flat_map (fun _ => l) xs) = flat_map (fun _ => List.filter p l) xs.
Proof.
  induction xs as [|x xs IH]; [reflexivity|].
  cbn [flat_map]. rewrite List.filter_app, IH. reflexivity.
Qed.

Lemma flat_map_nil {A B} (xs : list A) : flat_map (fun _ => @nil B) xs = [].
Proof. induction xs; [reflexivity | assumption]. Qed.

Lemma flat_map_const_repeat {A B} (l : list B) (xs : list A) :
  flat_map (fun _ => l) xs = concat (repeat l (length xs)).
Proof.
  induction xs as [|x xs IH]; [reflexivity|].
  cbn [flat_map length repeat concat]. rewrite IH. reflexivity.
Qed.

End Lists.

(** ** Runs of [train] against its data flow *)

Section TrainRuns.
Context {T : Torch} {W : Workspace}.

Lemma frame_of_holds x acc : holds_sums (frame_of x acc) acc.
Proof. repeat split. Qed.

Lemma objects_of_frame_of w x acc :
  objects_of (with_rng (the_rng x) w) (frame_of x acc) = x.
Proof. destruct x; reflexivity. Qed.

Lemma with_rng_twice r1 r2 w : with_rng r2 (with_rng r1 w) = with_rng r2 w.
Proof. reflexivity. Qed.

(** One batch: the run of [train_batch] is the step of the data flow. *)
Lemma train_batch_run loss_fn data w f acc :
  holds_sums f acc ->
  let s := step_flow loss_fn data (objects_of w f) in
  train_batch loss_fn data (w, f) =
    (Ok tt,
     (with_rng (the_rng (step_after s)) w, frame_of (step_after s) (add_step acc s)),
     step_events loss_fn).
Proof.
  destruct f as [m o rl dl fl], acc as [a b c].
  intros (Hr & Hd & Hf); simpl in Hr, Hd, Hf; subst rl dl fl.
  unfold train_batch, step_flow, objects_of; unfold_calls; cbn.
  destruct (forward (zero_grad o m) (tensor_cuda (image data)) (w_rng w))
    as [[logits m1] r1]; cbn.
  destruct (optimizer_step o _) as [o3 m3]; cbn.
  reflexivity.
Qed.

Lemma state_eta w f acc :
  holds_sums f acc ->
  (w, f) = (with_rng (the_rng (objects_of w f)) w, frame_of (objects_of w f) acc).
Proof.
  destruct w, f, acc; unfold holds_sums; simpl.
  intros (-> & -> & ->); reflexivity.
Qed.

(** The batches of an epoch: the run of the inner loop is [batches_flow]. *)
Lemma batches_run loss_fn batches : forall w f acc,
  holds_sums f acc ->
  let out := batches_flow loss_fn batches (objects_of w f) acc in
  for_each batches (train_batch loss_fn) (w, f) =
    (Ok tt,
     (with_rng (the_rng (fst out)) w, frame_of (fst out) (snd out)),
     flat_map (fun _ => step_events loss_fn) batches).
Proof.
  induction batches as [|data rest IH]; intros w f acc Hf.
  - cbn. rewrite (state_eta w f acc Hf) at 1. reflexivity.
  - cbn [for_each batches_flow flat_map]. unfold bind.
    rewrite (train_batch_run loss_fn data w f acc Hf).
    rewrite (IH _ _ _ (frame_of_holds _ _)).
    rewrite objects_of_frame_of, with_rng_twice.
    reflexivity.
Qed.

(** One epoch.  Whatever the accumulators held on entry, the epoch reports
    the sums of [epoch_flow]; only the modulo test can raise. *)
Lemma train_epoch_run train_loader loss_fn exp_dir save_every epoch w f :
  let out := epoch_flow train_loader loss_fn (objects_of w f) in
  train_epoch train_loader loss_fn exp_dir save_every epoch (w, f) =
    (if save_every =? 0 then Raise ZeroDivisionError else Ok tt,
     (with_rng (the_rng (fst out)) w, frame_of (fst out) (snd out)),
     epoch_events train_loader loss_fn exp_dir save_every epoch (objects_of w f)).
Proof.
  unfold train_epoch, epoch_events, epoch_batches, epoch_flow, objects_of.
  unfold_calls; cbn.
  destruct (loader_iter train_loader (w_rng w)) as [batches r]; cbn.
  match goal with
  | |- context [for_each batches (train_batch loss_fn) (?w1, ?f1)] =>
      rewrite (batches_run loss_fn batches w1 f1 zero_sums) by (repeat split)
  end.
  cbn.
  set (out := batches_flow loss_fn batches _ zero_sums).
  unfold save_events.
  destruct (save_every =? 0); cbn.
  - reflexivity.
  - destruct (epoch mod save_every =? 0); cbn; rewrite ?app_nil_r; reflexivity.
Qed.

(** The epochs [es] with a usable [save_every]: all of them run. *)
Lemma epochs_run train_loader loss_fn exp_dir save_every es :
  save_every <> 0 ->
  forall w f,
  let x := epochs_flow train_loader loss_fn es (objects_of w f) in
  exists f',
    for_each es (train_epoch train_loader loss_fn exp_dir save_every) (w, f) =
      (Ok tt, (with_rng (the_rng x) w, f'),
       epochs_events train_loader loss_fn exp_dir save_every es (objects_of w f)) /\
    objects_of (with_rng (the_rng x) w) f' = x.
Proof.
  intros Hk. apply Z.eqb_neq in Hk.
  induction es as [|epoch rest IH]; intros w f; cbn zeta.
  - exists f. cbn. destruct w; split; reflexivity.
  - cbn [for_each epochs_flow epochs_events]. unfold bind.
    rewrite train_epoch_run, Hk.
    set (out := epoch_flow train_loader loss_fn (objects_of w f)).
    destruct (IH (with_rng (the_rng (fst out)) w) (frame_of (fst out) (snd out)))
      as (f' & Hrun & Hobj).
    rewrite objects_of_frame_of in Hrun, Hobj.
    rewrite Hrun. exists f'. split; [reflexivity | exact Hobj].
Qed.

(** With [save_every = 0] the first epoch raises at its modulo test. *)
Lemma epochs_run_zero train_loader loss_fn exp_dir epoch rest w f :
  let out := epoch_flow train_loader loss_fn (objects_of w f) in
  for_each (epoch :: rest) (train_epoch train_loader loss_fn exp_dir 0) (w, f) =
    (Raise ZeroDivisionError,
     (with_rng (the_rng (fst out)) w, frame_of (fst out) (snd out)),
     epoch_events train_loader loss_fn exp_dir 0 epoch (objects_of w f)).
Proof.
  cbn [for_each]. unfold bind. rewrite train_epoch_run. reflexivity.
Qed.

(** [train] with a usable [save_every] returns, and its events are those of
    the epochs [1 .. epochs] followed by the flush. *)
Lemma train_run train_loader m o loss_fn epochs exp_dir save_every w :
  save_every <> 0 ->
  let x := epochs_flow train_loader loss_fn (range 1 (epochs + 1)) (start m o w) in
  train train_loader m o loss_fn epochs exp_dir save_every w =
    (Ok tt, with_rng (the_rng x) w,
     epochs_events train_loader loss_fn exp_dir save_every
       (range 1 (epochs + 1)) (start m o w) ++ [EvFlush]).
Proof.
  intros Hk. cbn zeta. unfold train, train_loop, bind.
  destruct (epochs_run train_loader loss_fn exp_dir save_every
              (range 1 (epochs + 1)) Hk w (enter m o)) as (f' & Hrun & _).
  rewrite Hrun. reflexivity.
Qed.

(** [train] with nothing to iterate over only flushes. *)
Lemma train_run_empty train_loader m o loss_fn epochs exp_dir save_every w :
  epochs < 1 ->
  train train_loader m o loss_fn epochs exp_dir save_every w = (Ok tt, w, [EvFlush]).
Proof.
  intros He. unfold train, train_loop, range.
  replace (Z.to_nat (epochs + 1 - 1)) with 0%nat by lia.
  reflexivity.
Qed.

(** [train] with [save_every = 0] and at least one epoch raises in the
    first epoch, before the flush. *)
Lemma train_run_zero train_loader m o loss_fn epochs exp_dir w :
  1 <= epochs ->
  let out := epoch_flow train_loader loss_fn (start m o w) in
  train train_loader m o loss_fn epochs exp_dir 0 w =
    (Raise ZeroDivisionError, with_rng (the_rng (fst out)) w,
     epoch_events train_loader loss_fn exp_dir 0 1 (start m o w)).
Proof.
  intros He. cbn zeta. unfold train, train_loop, bind, range.
  destruct (Z.to_nat (epochs + 1 - 1)) as [|n] eqn:En; [lia|].
  cbn [seq List.map].
  rewrite epochs_run_zero. reflexivity.
Qed.

(** *** Projections of the events of the epochs *)

Section Projections.
Variables (train_loader : loader) (loss_fn : criterion) (exp_dir : string)
  (save_every : Z).

Lemma epochs_events_app es1 es2 x :
  epochs_events train_loader loss_fn exp_dir save_every (es1 ++ es2) x =
  epochs_events train_loader loss_fn exp_dir save_every es1 x ++
  epochs_events train_loader loss_fn exp_dir save_every es2
    (epochs_flow train_loader loss_fn es1 x).
Proof.
  revert x. induction es1 as [|e es1 IH]; intros x; [reflexivity|].
  cbn [app epochs_events epochs_flow]. rewrite IH, app_assoc. reflexivity.
Qed.

(** A projection whose image of an epoch does not depend on the objects
    is computed epoch by epoch. *)
Lemma filter_epochs_events (p : event -> bool) (g : Z -> list event) es :
  (forall epoch x,
     List.filter p (epoch_events train_loader loss_fn exp_dir save_every epoch x) = g epoch) ->
  forall x,
  List.filter p (epochs_events train_loader loss_fn exp_dir save_every es x) = flat_map g es.
Proof.
  intros Hp. induction es as [|e es IH]; intros x; [reflexivity|].
  cbn [epochs_events flat_map]. rewrite List.filter_app, Hp, IH. reflexivity.
Qed.

Lemma filter_save_events epoch :
  List.filter is_save (save_events exp_dir save_every epoch) =
  save_events exp_dir save_every epoch.
Proof.
  unfold save_events. destruct (save_every =? 0); [reflexivity|].
  destruct (epoch mod save_every =? 0); reflexivity.
Qed.

Lemma filter_none_save_events (p : event -> bool) epoch :
  (forall d e, p (EvSaveLatest d e) = false) ->
  (forall d e, p (EvSaveCheckpoint d e) = false) ->
  List.filter p (save_events exp_dir save_every epoch) = [].
Proof.
  intros H1 H2. unfold save_events. cbn [List.filter]. rewrite H1.
  destruct (save_every =? 0); [reflexivity|].
  destruct (epoch mod save_every =? 0); cbn [List.filter]; rewrite ?H2; reflexivity.
Qed.

Lemma filter_epoch_events (p : event -> bool) epoch x :
  let acc := snd (epoch_flow train_loader loss_fn x) in
  List.filter p (epoch_events train_loader loss_fn exp_dir save_every epoch x) =
  List.filter p [EvNetTrain] ++
  flat_map (fun _ => List.filter p (step_events loss_fn)) (epoch_batches train_loader x) ++
  List.filter p (report_events acc epoch) ++
  List.filter p [EvPrint [Lit "Epoch:"; FmtInt epoch; Lit " | Running Loss:";
                          FmtFloat (overall acc)]] ++
  List.filter p (save_events exp_dir save_every epoch).
Proof.
  intros acc. unfold epoch_events. fold acc.
  rewrite <- filter_flat_map_const, <- !List.filter_app. reflexivity.
Qed.

Lemma epoch_saves epoch x :
  List.filter is_save (epoch_events train_loader loss_fn exp_dir save_every epoch x) =
  save_events exp_dir save_every epoch.
Proof.
  rewrite filter_epoch_events, filter_save_events.
  cbn [List.filter step_events report_events is_save].
  rewrite flat_map_nil. reflexivity.
Qed.

Lemma epoch_flushes epoch x :
  List.filter is_flush (epoch_events train_loader loss_fn exp_dir save_every epoch x) = [].
Proof.
  rewrite filter_epoch_events, (filter_none_save_events is_flush) by reflexivity.
  cbn [List.filter step_events report_events is_flush].
  rewrite flat_map_nil. reflexivity.
Qed.

Lemma epoch_steps_events epoch x :
  List.filter is_step_event (epoch_events train_loader loss_fn exp_dir save_every epoch x) =
  flat_map (fun _ => step_events loss_fn) (epoch_batches train_loader x).
Proof.
  rewrite filter_epoch_events, (filter_none_save_events is_step_event) by reflexivity.
  cbn [List.filter step_events report_events is_step_event].
  cbn [app]. apply app_nil_r.
Qed.

Lemma epoch_scalars epoch' epoch x :
  List.filter (is_scalar_of epoch')
    (epoch_events train_loader loss_fn exp_dir save_every epoch x) =
  if epoch =? epoch'
  then report_events (snd (epoch_flow train_loader loss_fn x)) epoch
  else [].
Proof.
  rewrite filter_epoch_events, (filter_none_save_events (is_scalar_of epoch')) by reflexivity.
  cbn [List.filter step_events report_events is_scalar_of].
  rewrite flat_map_nil.
  destruct (epoch =? epoch'); reflexivity.
Qed.

Lemma epochs_scalars_absent epoch' es :
  ~ In epoch' es ->
  forall x,
  List.filter (is_scalar_of epoch')
    (epochs_events train_loader loss_fn exp_dir save_every es x) = [].
Proof.
  induction es as [|e es IH]; intros Hnot x; [reflexivity|].
  cbn [epochs_events]. rewrite List.filter_app, epoch_scalars.
  destruct (Z.eqb_spec e epoch') as [->|_].
  - exfalso. apply Hnot. left. reflexivity.
  - apply IH. intros Hin. apply Hnot. right. exact Hin.
Qed.

(** The metrics logged at step [epoch] are those of the one epoch numbered
    [epoch], computed from the objects that epoch starts from. *)
Lemma epochs_scalars_at epoch lo hi x :
  lo <= epoch < hi ->
  List.filter (is_scalar_of epoch)
    (epochs_events train_loader loss_fn exp_dir save_every (range lo hi) x) =
  report_events
    (snd (epoch_flow train_loader loss_fn
            (epochs_flow train_loader loss_fn (range lo epoch) x))) epoch.
Proof.
  intros H.
  rewrite (range_split lo epoch hi), (range_first epoch hi) by lia.
  rewrite epochs_events_app. cbn [epochs_events].
  rewrite !List.filter_app, epoch_scalars, Z.eqb_refl.
  rewrite !epochs_scalars_absent; [apply app_nil_r | |];
    rewrite in_range; lia.
Qed.

End Projections.

(** *** The sums of an epoch, step by step *)

Lemma batches_flow_sums loss_fn batches : forall x acc,
  snd (batches_flow loss_fn batches x acc) =
  fold_left add_step (steps_flow loss_fn batches x) acc.
Proof.
  induction batches as [|data rest IH]; intros x acc; [reflexivity|].
  cbn [batches_flow steps_flow fold_left]. apply IH.
Qed.

Lemma epoch_flow_sums train_loader loss_fn x :
  snd (epoch_flow train_loader loss_fn x) =
  fold_left add_step (epoch_steps train_loader loss_fn x) zero_sums.
Proof.
  unfold epoch_flow, epoch_steps.
  destruct (loader_iter train_loader (the_rng x)) as [batches r].
  apply batches_flow_sums.
Qed.

Lemma step_flow_loss1 loss_fn data x :
  let s := step_flow loss_fn data x in
  step_loss1 s = loss_fn_forward loss_fn (step_logits s) (step_mask s).
Proof.
  unfold step_flow.
  destruct (forward _ _ _) as [[logits m1] r1].
  destruct (optimizer_step _ _) as [o3 m3]. reflexivity.
Qed.

Lemma steps_flow_dice loss_fn batches : forall x acc,
  dice (fold_left add_step (steps_flow loss_fn batches x) acc) =
  fold_left
    (fun a s => (a + item (loss_fn_forward loss_fn (step_logits s) (step_mask s)))%float)
    (steps_flow loss_fn batches x) (dice acc).
Proof.
  induction batches as [|data rest IH]; intros x acc; [reflexivity|].
  cbn [steps_flow fold_left]. rewrite IH.
  cbn [add_step dice]. rewrite step_flow_loss1. reflexivity.
Qed.

(** *** The claims on [train] *)

(** C4. For [epochs >= 1] and [save_every >= 1], [train] returns; the loop
    runs the epochs [1 .. epochs] in order; [save_latest] is called at the
    end of every one of them, and [save_checkpoint] at those and only those
    with [epoch mod save_every = 0]. *)
Theorem checkpoint_schedule train_loader m o loss_fn epochs exp_dir save_every w :
  1 <= epochs -> 1 <= save_every ->
  let run := train train_loader m o loss_fn epochs exp_dir save_every w in
  res run = Ok tt /\
  List.filter is_save (emitted run) =
    flat_map (fun epoch =>
                EvSaveLatest exp_dir epoch ::
                if epoch mod save_every =? 0 then [EvSaveCheckpoint exp_dir epoch] else [])
             (range 1 (epochs + 1)) /\
  (forall epoch, In epoch (range 1 (epochs + 1)) <-> 1 <= epoch <= epochs) /\
  (forall d epoch, In (EvSaveLatest d epoch) (emitted run) <->
                   d = exp_dir /\ 1 <= epoch <= epochs) /\
  (forall d epoch, In (EvSaveCheckpoint d epoch) (emitted run) <->
                   d = exp_dir /\ 1 <= epoch <= epochs /\ epoch mod save_every = 0).
Proof.
  intros He Hk run.
  assert (Hk0 : save_every <> 0) by lia.
  assert (Hrange : forall epoch, In epoch (range 1 (epochs + 1)) <-> 1 <= epoch <= epochs)
    by (intros epoch; rewrite in_range; lia).
  assert (Hsaves : List.filter is_save (emitted run) =
    flat_map (fun epoch =>
                EvSaveLatest exp_dir epoch ::
                if epoch mod save_every =? 0 then [EvSaveCheckpoint exp_dir epoch] else [])
             (range 1 (epochs + 1))).
  { subst run. rewrite train_run by exact Hk0. unfold emitted; cbn [snd].
    rewrite List.filter_app. cbn [List.filter is_save]. rewrite app_nil_r.
    apply filter_epochs_events. intros epoch x. rewrite epoch_saves.
    unfold save_events. apply Z.eqb_neq in Hk0. rewrite Hk0. reflexivity. }
  split; [subst run; rewrite train_run by exact Hk0; reflexivity|].
  split; [exact Hsaves|]. split; [exact Hrange|].
  assert (Hin : forall ev, is_save ev = true ->
            (In ev (emitted run) <-> In ev (List.filter is_save (emitted run)))).
  { intros ev Hev. rewrite List.filter_In. tauto. }
  split; intros d epoch.
  - rewrite Hin, Hsaves, List.in_flat_map by reflexivity. split.
    + intros (e & Hr & [Heq|Hc]).
      * injection Heq as <- <-. apply Hrange in Hr. auto.
      * destruct (e mod save_every =? 0); [|destruct Hc].
        destruct Hc as [Hc|[]]. discriminate Hc.
    + intros (-> & Hr). exists epoch. split; [apply Hrange; exact Hr | left; reflexivity].
  - rewrite Hin, Hsaves, List.in_flat_map by reflexivity. split.
    + intros (e & Hr & [Heq|Hc]); [discriminate Heq|].
      destruct (Z.eqb_spec (e mod save_every) 0) as [Hm|Hm]; [|destruct Hc].
      destruct Hc as [Hc|[]]. injection Hc as <- <-. apply Hrange in Hr. auto.
    + intros (-> & Hr & Hm). exists epoch. split; [apply Hrange; exact Hr|].
      right. apply Z.eqb_eq in Hm. rewrite Hm. left. reflexivity.
Qed.

Lemma step_events_blocks train_loader loss_fn exp_dir save_every es : forall x,
  exists n,
    List.filter is_step_event
      (epochs_events train_loader loss_fn exp_dir save_every es x) =
    concat (repeat (step_events loss_fn) n).
Proof.
  induction es as [|e es IH]; intros x.
  - exists 0%nat. reflexivity.
  - destruct (IH (fst (epoch_flow train_loader loss_fn x))) as (n & Hn).
    exists (length (epoch_batches train_loader x) + n)%nat.
    cbn [epochs_events]. rewrite List.filter_app, epoch_steps_events, Hn.
    rewrite flat_map_const_repeat, repeat_app, concat_app. reflexivity.
Qed.

(** C5. A training step zeroes the gradients, moves image and mask to the
    device, runs the forward pass, evaluates the criterion and the focal
    loss on logits and mask, adds them, runs the backward pass, applies the
    optimizer step and only then reads the three losses into the three
    running sums, in this order; and every step event of a whole run of
    [train] belongs to such a block. *)
Theorem training_step_order loss_fn :
  (forall data w f rl dl fl,
     running_loss f = Some rl -> dice_loss f = Some dl -> focal_loss f = Some fl ->
     let s := step_flow loss_fn data (objects_of w f) in
     let run := train_batch loss_fn data (w, f) in
     res run = Ok tt /\
     emitted run =
       [ EvZeroGrad; EvTensorCuda; EvTensorCuda; EvForward;
         EvCriterion loss_fn; EvSigmoidFocalLoss ReduceMean; EvTensorAdd;
         EvBackward; EvOptimizerStep; EvItem; EvItem; EvItem ] /\
     model (snd (final run)) = the_model (step_after s) /\
     optimizer (snd (final run)) = the_optimizer (step_after s) /\
     running_loss (snd (final run)) = Some (rl + item (step_loss s))%float /\
     dice_loss (snd (final run)) = Some (dl + item (step_loss1 s))%float /\
     focal_loss (snd (final run)) = Some (fl + item (step_loss2 s))%float) /\
  (forall train_loader m o epochs exp_dir save_every w,
     save_every <> 0 ->
     exists n,
       List.filter is_step_event
         (emitted (train train_loader m o loss_fn epochs exp_dir save_every w)) =
       concat (repeat (step_events loss_fn) n)).
Proof.
  split.
  - intros data w f rl dl fl Hr Hd Hf s run.
    subst run.
    rewrite (train_batch_run loss_fn data w f
               {| overall := rl; dice := dl; focal := fl |}) by (repeat split; assumption).
    fold s. repeat split.
  - intros train_loader m o epochs exp_dir save_every w Hk.
    rewrite train_run by exact Hk. unfold emitted; cbn [snd].
    destruct (step_events_blocks train_loader loss_fn exp_dir save_every
                (range 1 (epochs + 1)) (start m o w)) as (n & Hn).
    exists n. rewrite List.filter_app, Hn. cbn [List.filter is_step_event].
    apply app_nil_r.
Qed.

(** C8. The writer is flushed after the epoch loop and nowhere in it: the
    events of the loop contain no flush; a run whose loop completes ends
    with the one flush; a run that raises in the loop never flushes. *)
Theorem flush_once_at_end train_loader m o loss_fn epochs exp_dir save_every w :
  let run := train train_loader m o loss_fn epochs exp_dir save_every w in
  let loop := epochs_events train_loader loss_fn exp_dir save_every
                (range 1 (epochs + 1)) (start m o w) in
  List.filter is_flush loop = [] /\
  (save_every <> 0 \/ epochs < 1 ->
     res run = Ok tt /\ emitted run = loop ++ [EvFlush] /\
     length (List.filter is_flush (emitted run)) = 1%nat) /\
  (save_every = 0 /\ 1 <= epochs ->
     res run = Raise ZeroDivisionError /\ List.filter is_flush (emitted run) = []).
Proof.
  intros run loop.
  assert (Hloop : List.filter is_flush loop = []).
  { subst loop. rewrite (filter_epochs_events _ _ _ _ is_flush (fun _ => [])).
    - apply flat_map_nil.
    - intros epoch x. apply epoch_flushes. }
  split; [exact Hloop|]. split.
  - intros [Hk|He].
    + subst run loop. rewrite train_run by exact Hk. unfold res, emitted; cbn [fst snd].
      repeat split. rewrite List.filter_app.
      fold (start m o w). rewrite Hloop. reflexivity.
    + subst run loop. rewrite train_run_empty by exact He.
      unfold range. replace (Z.to_nat (epochs + 1 - 1)) with 0%nat by lia.
      repeat split.
  - intros (-> & He). subst run. rewrite train_run_zero by exact He.
    unfold res, emitted; cbn [fst snd]. split; [reflexivity|].
    apply epoch_flushes.
Qed.

(** The metrics logged at step [epoch] of a run of [train]. *)
Lemma train_scalars_at train_loader m o loss_fn epochs exp_dir save_every w epoch :
  save_every <> 0 -> 1 <= epoch <= epochs ->
  let x := epochs_flow train_loader loss_fn (range 1 epoch) (start m o w) in
  List.filter (is_scalar_of epoch)
    (emitted (train train_loader m o loss_fn epochs exp_dir save_every w)) =
  report_events
    (fold_left add_step (epoch_steps train_loader loss_fn x) zero_sums) epoch.
Proof.
  intros Hk He x.
  rewrite train_run by exact Hk. unfold emitted; cbn [snd].
  rewrite List.filter_app. cbn [List.filter is_scalar_of]. rewrite app_nil_r.
  rewrite epochs_scalars_at by lia. fold x.
  rewrite epoch_flow_sums. reflexivity.
Qed.

(** C10. The three running sums are reset when an epoch starts: what the
    accumulators held on entry does not reach the epoch's run, and the three
    metrics logged at step [epoch] are the sums, from zero, over the steps
    of the epoch numbered [epoch] alone. *)
Theorem epoch_metrics_reset train_loader loss_fn exp_dir save_every :
  (forall epoch w f f',
     model f = model f' -> optimizer f = optimizer f' ->
     train_epoch train_loader loss_fn exp_dir save_every epoch (w, f) =
     train_epoch train_loader loss_fn exp_dir save_every epoch (w, f')) /\
  (forall m o epochs w epoch,
     save_every <> 0 -> 1 <= epoch <= epochs ->
     let x := epochs_flow train_loader loss_fn (range 1 epoch) (start m o w) in
     List.filter (is_scalar_of epoch)
       (emitted (train train_loader m o loss_fn epochs exp_dir save_every w)) =
     report_events
       (fold_left add_step (epoch_steps train_loader loss_fn x) zero_sums) epoch).
Proof.
  split.
  - intros epoch w f f' Hm Ho.
    rewrite !train_epoch_run. unfold objects_of. rewrite Hm, Ho. reflexivity.
  - intros m o epochs w epoch Hk He. apply train_scalars_at; assumption.
Qed.

(** C1, as the loop has it. The loss a step backpropagates is the sum of
    two terms, the selected criterion's loss and the framework's focal loss
    with mean reduction; it is also the loss whose [item] the step adds to
    the overall running sum, and these two are the only losses a step
    evaluates. *)
Theorem backpropagated_loss_two_terms loss_fn data w f acc :
  holds_sums f acc ->
  let run := train_batch loss_fn data (w, f) in
  let fw := forward (zero_grad (optimizer f) (model f))
                    (tensor_cuda (image data)) (w_rng w) in
  let loss := two_term_loss loss_fn (fst (fst fw)) (tensor_cuda (mask data)) in
  backpropagates two_term_loss loss_fn data w f /\
  running_loss (snd (final run)) = Some (overall acc + item loss)%float /\
  List.filter is_loss_eval (emitted run) =
    [EvCriterion loss_fn; EvSigmoidFocalLoss ReduceMean].
Proof.
  intros Hf. unfold backpropagates. cbn zeta.
  rewrite (train_batch_run loss_fn data w f acc Hf).
  unfold final, emitted; cbn [fst snd].
  unfold step_flow, objects_of; cbn [the_model the_optimizer the_rng].
  destruct (forward _ _ _) as [[logits m1] r1]; cbn [fst snd].
  destruct (optimizer_step _ _) as [o3 m3] eqn:Hstep.
  cbn [step_after the_model frame_of model running_loss add_step overall step_loss].
  unfold two_term_loss in *.
  repeat split.
Qed.

End TrainRuns.

(** ** Runs of [main] *)

Section MainRuns.
Context {T : Torch} {W : Workspace}.

Lemma main_missing_dir exp_dir w :
  exp_dir ∉ w_dirs w ->
  main exp_dir w =
    (Ok (RetInt 0), with_rng seeded w,
     seed_events ++
     [EvPrint [Lit "[ERROR] Experiment dir "; FmtStr exp_dir; Lit " does not exist!"]]).
Proof.
  intros Hdir. unfold main. unfold_main_calls. reduce_world.
  rewrite (bool_decide_eq_false_2 _ Hdir). reduce_world.
  reflexivity.
Qed.

(** With the experiment directory in place and no regular file in the way
    of the two subdirectories, [main] reaches the configuration file. *)
Lemma main_reaches_specs exp_dir w :
  exp_dir ∈ w_dirs w ->
  w_files w !! os_path_join exp_dir checkpoint_subdir = None ->
  w_files w !! os_path_join exp_dir evaluation_subdir = None ->
  let w1 := with_dirs (dirs_after_setup exp_dir (w_dirs w)) (with_rng seeded w) in
  main exp_dir w =
    match (specs <- load_specs (os_path_join exp_dir "specs.json") ;;
           main_run exp_dir specs) w1 with
    | (r, w2, t) => (r, w2, seed_events ++ setup_events exp_dir (w_dirs w) ++ t)
    end.
Proof.
  intros Hdir Hc He w1. subst w1.
  unfold main, dirs_after_setup, setup_events.
  set (rest := (specs <- load_specs _ ;; main_run exp_dir specs)).
  unfold_main_calls. reduce_world.
  rewrite (bool_decide_eq_true_2 _ Hdir). reduce_world.
  destruct (bool_decide (os_path_join exp_dir checkpoint_subdir ∈ w_dirs w));
    reduce_world; rewrite ?Hc; reduce_world.
  - destruct (bool_decide (os_path_join exp_dir evaluation_subdir ∈ w_dirs w));
      reduce_world; rewrite ?He; reduce_world.
    + destruct (rest _) as [[r w2] t]. reflexivity.
    + destruct (rest _) as [[r w2] t]. reflexivity.
  - destruct (bool_decide (os_path_join exp_dir evaluation_subdir ∈ _));
      reduce_world; rewrite ?He; reduce_world.
    + destruct (rest _) as [[r w2] t]. reflexivity.
    + destruct (rest _) as [[r w2] t]. reflexivity.
Qed.

Lemma main_run_unrecognized exp_dir specs w :
  LossFunction specs <> "Dice" -> LossFunction specs <> "BCE" ->
  main_run exp_dir specs w =
    (Ok (RetInt 0), with_rng (snd (Unet2D 1 1 (w_rng w))) w,
     build_events specs ++ [unrecognized_message]).
Proof.
  intros Hd Hb. apply String.eqb_neq in Hd, Hb.
  unfold main_run. rewrite Hd, Hb.
  unfold_main_calls. reduce_world.
  destruct (Unet2D 1 1 (w_rng w)) as [m r1]. reduce_world.
  reflexivity.
Qed.

Lemma main_run_bce exp_dir specs w :
  LossFunction specs = "BCE" ->
  let setup := main_objects specs (w_rng w) in
  main_run exp_dir specs w =
    match train (fst setup) (the_model (snd setup)) (the_optimizer (snd setup))
            BCEWithLogitsLoss (Epochs specs) exp_dir (SaveEvery specs)
            (with_rng (the_rng (snd setup)) w) with
    | (r, w1, t) =>
        (match r with Ok _ => Ok RetNone | Raise e => Raise e end, w1,
         build_events specs ++
         [ EvPrint [Lit "Using the BCEWithLogits as the loss function"];
           EvNewCriterion BCEWithLogitsLoss;
           EvSkLoader (os_path_join (DataSource specs) "images")
                      (os_path_join (DataSource specs) "labels")
                      (BatchSize specs) (Debug specs) (NumDebug specs);
           EvPrint [Lit "Begin Training......."];
           EvSummaryWriter exp_dir ] ++ t)
    end.
Proof.
  intros Hb. cbn zeta. unfold main_run, main_objects. rewrite Hb.
  change (String.eqb "BCE" "Dice") with false.
  change (String.eqb "BCE" "BCE") with true. cbv iota.
  unfold_main_calls. reduce_world.
  destruct (Unet2D 1 1 (w_rng w)) as [m r1]. reduce_world.
  destruct (sk_loader _ _ _ _ _ r1) as [train_loader r2]. reduce_world.
  cbn [the_model the_optimizer the_rng].
  destruct (train _ _ _ _ _ _ _ _) as [[[u|e] w1] t]; cbn [app];
    rewrite ?app_nil_r; reflexivity.
Qed.

Lemma load_specs_run path w :
  load_specs path w =
    (match w_files w !! path with
     | Some specs => Ok specs
     | None => if bool_decide (path ∈ w_dirs w) then Raise IsADirectoryError
               else Raise FileNotFoundError
     end, w, [EvOpen path]).
Proof.
  unfold load_specs. unfold_main_calls.
  destruct (w_files w !! path); [reflexivity|].
  destruct (bool_decide (path ∈ w_dirs w)); reflexivity.
Qed.

Lemma filter_setup_events (p : event -> bool) exp_dir d :
  (forall path, p (EvMakedirs path) = false) ->
  List.filter p (setup_events exp_dir d) = [].
Proof.
  intros Hp. unfold setup_events. rewrite List.filter_app.
  destruct (bool_decide _); destruct (bool_decide _);
    cbn [List.filter app]; rewrite ?Hp; reflexivity.
Qed.

(** *** The claims on [main] *)

(** C6. When the experiment directory does not exist, [main] prints the
    error message and returns 0 without raising; after the seeding it does
    nothing else: no directory is created, no file opened, nothing built,
    and the file system is as it was. *)
Theorem missing_experiment_dir exp_dir w :
  exp_dir ∉ w_dirs w ->
  let run := main exp_dir w in
  res run = Ok (RetInt 0) /\
  emitted run =
    [ EvNumpySeed 2020; EvTorchSeed 2020; EvCudaSeed 2020;
      EvPrint [Lit "[ERROR] Experiment dir "; FmtStr exp_dir; Lit " does not exist!"] ] /\
  List.filter is_setup (emitted run) = [] /\
  w_dirs (final run) = w_dirs w /\
  w_files (final run) = w_files w.
Proof.
  intros Hdir run. subst run. rewrite (main_missing_dir exp_dir w Hdir).
  repeat split.
Qed.

(** C2, as [main] has it. With the experiment directory and the
    configuration in place and a loss name that is neither "Dice" nor "BCE",
    [main] prints the error and returns 0 without raising.  By then it has
    built the model and the optimizer, in that order; it builds no data
    loader and no writer and does not train. *)
Theorem unrecognized_loss_returns_sentinel exp_dir w specs :
  exp_dir ∈ w_dirs w ->
  w_files w !! os_path_join exp_dir checkpoint_subdir = None ->
  w_files w !! os_path_join exp_dir evaluation_subdir = None ->
  w_files w !! os_path_join exp_dir "specs.json" = Some specs ->
  LossFunction specs <> "Dice" -> LossFunction specs <> "BCE" ->
  let run := main exp_dir w in
  res run = Ok (RetInt 0) /\
  emitted run =
    seed_events ++ setup_events exp_dir (w_dirs w) ++
    [EvOpen (os_path_join exp_dir "specs.json")] ++
    build_events specs ++
    [EvPrint [Lit "Loss function specified in experiment specs.json is not recognized!"]] /\
  List.filter is_construction (emitted run) =
    [EvUnet2D 1 1; EvAdam (LearningRate specs)].
Proof.
  intros Hdir Hc He Hs Hd Hb run.
  assert (Hrun : run =
    (Ok (RetInt 0),
     with_rng (snd (Unet2D 1 1 seeded))
       (with_dirs (dirs_after_setup exp_dir (w_dirs w)) (with_rng seeded w)),
     seed_events ++ setup_events exp_dir (w_dirs w) ++
     [EvOpen (os_path_join exp_dir "specs.json")] ++
     build_events specs ++ [unrecognized_message])).
  { subst run. rewrite (main_reaches_specs exp_dir w Hdir Hc He).
    unfold bind. rewrite load_specs_run. reduce_world. rewrite Hs.
    rewrite (main_run_unrecognized exp_dir specs _ Hd Hb). reflexivity. }
  rewrite Hrun. unfold res, emitted; cbn [fst snd].
  split; [reflexivity|]. split; [reflexivity|].
  rewrite !List.filter_app, (filter_setup_events is_construction) by reflexivity.
  reflexivity.
Qed.

(** C3, as [main] has it. With the experiment directory in place and no
    [specs.json] in it, [main] raises: it prints nothing and builds no
    model, optimizer or data loader; when no regular file is in the way of
    the two subdirectories, these are in place by then and the exception is
    the one [open] raises. *)
Theorem missing_specs_raises exp_dir w :
  exp_dir ∈ w_dirs w ->
  w_files w !! os_path_join exp_dir "specs.json" = None ->
  let run := main exp_dir w in
  (exists e, res run = Raise e) /\
  List.filter is_print (emitted run) = [] /\
  List.filter is_construction (emitted run) = [] /\
  (w_files w !! os_path_join exp_dir checkpoint_subdir = None ->
   w_files w !! os_path_join exp_dir evaluation_subdir = None ->
   (res run = Raise FileNotFoundError \/ res run = Raise IsADirectoryError) /\
   emitted run = seed_events ++ setup_events exp_dir (w_dirs w) ++
                 [EvOpen (os_path_join exp_dir "specs.json")] /\
   w_dirs (final run) = dirs_after_setup exp_dir (w_dirs w)).
Proof.
  intros Hdir Hs run.
  assert (Hall : (exists e, res run = Raise e) /\
                 List.filter is_print (emitted run) = [] /\
                 List.filter is_construction (emitted run) = []).
  { subst run. unfold main.
    set (rest := (specs <- load_specs _ ;; main_run exp_dir specs)).
    assert (Hrest : forall w', w_files w' = w_files w ->
              rest w' =
              (if bool_decide (os_path_join exp_dir "specs.json" ∈ w_dirs w')
               then Raise IsADirectoryError else Raise FileNotFoundError,
               w', [EvOpen (os_path_join exp_dir "specs.json")])).
    { intros w' Hw'. subst rest. unfold bind. rewrite load_specs_run, Hw', Hs.
      destruct (bool_decide _); reflexivity. }
    unfold_main_calls. reduce_world.
    rewrite (bool_decide_eq_true_2 _ Hdir). reduce_world.
    destruct (bool_decide (os_path_join exp_dir checkpoint_subdir ∈ w_dirs w));
      reduce_world.
    - destruct (bool_decide (os_path_join exp_dir evaluation_subdir ∈ w_dirs w));
        reduce_world.
      + rewrite Hrest by reflexivity.
        destruct (bool_decide _); repeat split; eexists; reflexivity.
      + destruct (w_files w !! os_path_join exp_dir evaluation_subdir);
          reduce_world.
        * repeat split; eexists; reflexivity.
        * rewrite Hrest by reflexivity.
          destruct (bool_decide _); repeat split; eexists; reflexivity.
    - destruct (w_files w !! os_path_join exp_dir checkpoint_subdir);
        reduce_world.
      + repeat split; eexists; reflexivity.
      + destruct (bool_decide (os_path_join exp_dir evaluation_subdir ∈ _));
          reduce_world.
        * rewrite Hrest by reflexivity.
          destruct (bool_decide _); repeat split; eexists; reflexivity.
        * destruct (w_files w !! os_path_join exp_dir evaluation_subdir);
            reduce_world.
          -- repeat split; eexists; reflexivity.
          -- rewrite Hrest by reflexivity.
             destruct (bool_decide _); repeat split; eexists; reflexivity. }
  destruct Hall as (Hraise & Hprint & Hbuild).
  split; [exact Hraise|]. split; [exact Hprint|]. split; [exact Hbuild|].
  intros Hc He. subst run.
  rewrite (main_reaches_specs exp_dir w Hdir Hc He).
  unfold bind. rewrite load_specs_run. reduce_world. rewrite Hs.
  destruct (bool_decide _); unfold res, emitted, final; cbn [fst snd];
    rewrite ?app_nil_r; auto.
Qed.

Lemma filter_implied {A} (p q : A -> bool) (l : list A) :
  (forall a, p a = true -> q a = true) ->
  List.filter p (List.filter q l) = List.filter p l.
Proof.
  intros Hpq. induction l as [|a l IH]; [reflexivity|].
  cbn [List.filter]. destruct (q a) eqn:Hq; cbn [List.filter].
  - rewrite IH. reflexivity.
  - destruct (p a) eqn:Hp; [|exact IH].
    rewrite (Hpq a Hp) in Hq. discriminate Hq.
Qed.

Lemma scalar_at_is_scalar_of tag epoch ev :
  is_scalar_at tag epoch ev = true -> is_scalar_of epoch ev = true.
Proof.
  destruct ev; cbn; try discriminate.
  intros H. apply andb_true_iff in H. tauto.
Qed.

(** The metric logged as "Loss/dice" at step [epoch] of a run of [train]. *)
Lemma train_dice_metric train_loader m o loss_fn epochs exp_dir save_every w epoch :
  save_every <> 0 -> 1 <= epoch <= epochs ->
  let x := epochs_flow train_loader loss_fn (range 1 epoch) (start m o w) in
  List.filter (is_scalar_at "Loss/dice" epoch)
    (emitted (train train_loader m o loss_fn epochs exp_dir save_every w)) =
  [ EvAddScalar "Loss/dice"
      (fold_left
         (fun a s => (a + item (loss_fn_forward loss_fn (step_logits s) (step_mask s)))%float)
         (epoch_steps train_loader loss_fn x) 0%float)
      epoch ].
Proof.
  intros Hk He x.
  rewrite <- (filter_implied _ (is_scalar_of epoch)) by apply scalar_at_is_scalar_of.
  rewrite (train_scalars_at train_loader m o loss_fn epochs exp_dir save_every w
             epoch Hk He). fold x.
  unfold report_events. cbn [List.filter is_scalar_at].
  change (String.eqb "Loss/overall" "Loss/dice") with false.
  change (String.eqb "Loss/dice" "Loss/dice") with true.
  change (String.eqb "Loss/focal" "Loss/dice") with false.
  rewrite Z.eqb_refl. cbn [andb].
  unfold epoch_steps. destruct (loader_iter _ _) as [batches r].
  rewrite steps_flow_dice. reflexivity.
Qed.

(** C9. The metric logged as "Loss/dice" is the running sum of the loss of
    whichever criterion was passed to [train]; with [LossFunction = "BCE"]
    in the configuration, [main] passes [BCEWithLogitsLoss], and the metric
    sums the BCE-with-logits loss of the epoch's steps. *)
Theorem dice_metric_records_criterion :
  (forall train_loader m o loss_fn epochs exp_dir save_every w epoch,
     save_every <> 0 -> 1 <= epoch <= epochs ->
     let x := epochs_flow train_loader loss_fn (range 1 epoch) (start m o w) in
     List.filter (is_scalar_at "Loss/dice" epoch)
       (emitted (train train_loader m o loss_fn epochs exp_dir save_every w)) =
     [ EvAddScalar "Loss/dice"
         (fold_left
            (fun a s => (a + item (loss_fn_forward loss_fn (step_logits s) (step_mask s)))%float)
            (epoch_steps train_loader loss_fn x) 0%float)
         epoch ]) /\
  (forall exp_dir w specs epoch,
     exp_dir ∈ w_dirs w ->
     w_files w !! os_path_join exp_dir checkpoint_subdir = None ->
     w_files w !! os_path_join exp_dir evaluation_subdir = None ->
     w_files w !! os_path_join exp_dir "specs.json" = Some specs ->
     LossFunction specs = "BCE" ->
     SaveEvery specs <> 0 -> 1 <= epoch <= Epochs specs ->
     let train_loader := fst (main_objects specs seeded) in
     let x := epochs_flow train_loader BCEWithLogitsLoss (range 1 epoch)
                (snd (main_objects specs seeded)) in
     List.filter (is_scalar_at "Loss/dice" epoch) (emitted (main exp_dir w)) =
     [ EvAddScalar "Loss/dice"
         (fold_left
            (fun a s => (a + item (bce_with_logits_forward (step_logits s) (step_mask s)))%float)
            (epoch_steps train_loader BCEWithLogitsLoss x) 0%float)
         epoch ]).
Proof.
  split.
  - intros. apply train_dice_metric; assumption.
  - intros exp_dir w specs epoch Hdir Hc He Hs Hb Hk Hep train_loader x.
    rewrite (main_reaches_specs exp_dir w Hdir Hc He).
    unfold bind. rewrite load_specs_run. reduce_world. rewrite Hs.
    rewrite (main_run_bce exp_dir specs _ Hb). reduce_world.
    set (w1 := with_rng _ (with_dirs _ _)).
    pose proof (train_dice_metric train_loader
                  (the_model (snd (main_objects specs seeded)))
                  (the_optimizer (snd (main_objects specs seeded)))
                  BCEWithLogitsLoss (Epochs specs) exp_dir (SaveEvery specs)
                  w1 epoch Hk Hep) as Hmetric.
    assert (Hstart : start (the_model (snd (main_objects specs seeded)))
                       (the_optimizer (snd (main_objects specs seeded))) w1 =
                     snd (main_objects specs seeded)).
    { subst w1. unfold start. reduce_world.
      destruct (snd (main_objects specs seeded)); reflexivity. }
    cbn zeta in Hmetric. rewrite Hstart in Hmetric. fold x in Hmetric.
    fold train_loader.
    destruct (train train_loader _ _ _ _ _ _ w1) as [[r w2] t].
    unfold emitted in *; cbn [snd] in *.
    rewrite !List.filter_app, (filter_setup_events (is_scalar_at _ _)) by reflexivity.
    cbn [List.filter is_scalar_at seed_events build_events app].
    exact Hmetric.
Qed.

Lemma main_after_seeding exp_dir :
  exists k : M world retval,
  forall w,
    main exp_dir w =
    match k (with_rng seeded w) with
    | (r, w1, t) => (r, w1, seed_events ++ t)
    end.
Proof.
  unfold main.
  match goal with
  | |- context [bind (torch_cuda_manual_seed 2020) ?k] =>
      set (rest := k tt); exists rest
  end.
  intros w.
  unfold np_random_seed, torch_manual_seed, torch_cuda_manual_seed.
  unfold bind, emit, get, put. reduce_world.
  change (with_rng _ (with_rng _ (with_rng _ w))) with (with_rng seeded w).
  destruct (rest (with_rng seeded w)) as [[r w1] t].
  reflexivity.
Qed.

(** C7. [main] begins by seeding the NumPy, Torch CPU and Torch CUDA
    generators with the constant 2020, before anything else: the rest of
    the run starts from the seeded generators.  So two runs from machines
    that differ only in the generators' initial states are the same run:
    same result, same events, same final state of the generators. *)
Theorem seeding_determinism exp_dir :
  (exists k : M world retval,
   forall w,
     main exp_dir w =
     match k (with_rng seeded w) with
     | (r, w1, t) =>
         (r, w1, [EvNumpySeed 2020; EvTorchSeed 2020; EvCudaSeed 2020] ++ t)
     end) /\
  (forall w1 w2,
     w_dirs w1 = w_dirs w2 -> w_files w1 = w_files w2 ->
     main exp_dir w1 = main exp_dir w2).
Proof.
  destruct (main_after_seeding exp_dir) as (k & Hk).
  split.
  - exists k. exact Hk.
  - intros w1 w2 Hd Hf. rewrite !Hk.
    replace (with_rng seeded w2) with (with_rng seeded w1); [reflexivity|].
    unfold with_rng. rewrite Hd, Hf. reflexivity.
Qed.

End MainRuns.

(** ** The claims on the concrete framework *)

Section OnBench.
Import Bench.

(** One step from the weight 0.5 on the batch (1, 1): the logit is 0.5, the
    Dice stand-in gives 0.25 and the focal stand-in 0.25, so the gradient
    left by [backward] is 0.5 and the weight moves to 0.25. *)
Example bench_step_model :
  model (snd (final (train_batch DiceLoss bench_batch (bare, bench_frame)))) =
  (0.25%float, 0.5%float).
Proof. vm_compute. reflexivity. Qed.

Example bench_step_three_terms :
  three_term_loss DiceLoss 0.5%float 1%float = 5%float.
Proof. vm_compute. reflexivity. Qed.

(** The run of [main] on an unrecognized loss name. *)
Example bench_unrecognized_run :
  (res (main "exp" (prepared "MSE")), emitted (main "exp" (prepared "MSE"))) =
  (Ok (RetInt 0),
   [ EvNumpySeed 2020; EvTorchSeed 2020; EvCudaSeed 2020;
     EvMakedirs "exp/checkpoints"; EvMakedirs "exp/evaluation";
     EvOpen "exp/specs.json";
     EvPrint [Lit "Learning Rate:"; FmtFloat 0.5; Lit " | Epochs:"; FmtInt 2;
              Lit " | BatchSize:"; FmtInt 1];
     EvPrint [Lit "Training data dir: "; FmtStr "data"];
     EvUnet2D 1 1; EvNetCuda; EvAdam 0.5;
     EvPrint [Lit "Loss function specified in experiment specs.json is not recognized!"] ]).
Proof. vm_compute. reflexivity. Qed.

(** The run of [main] on an experiment directory without [specs.json]. *)
Example bench_missing_specs_run :
  (res (main "exp" no_specs), emitted (main "exp" no_specs)) =
  (Raise FileNotFoundError,
   [ EvNumpySeed 2020; EvTorchSeed 2020; EvCudaSeed 2020;
     EvMakedirs "exp/checkpoints"; EvMakedirs "exp/evaluation";
     EvOpen "exp/specs.json" ]).
Proof. vm_compute. reflexivity. Qed.

(** [posixpath.join] on the shapes of path the script meets. *)
Example os_path_join_cases :
  (os_path_join "exp" "specs.json", os_path_join "exp/" "specs.json",
   os_path_join "" "images", os_path_join "exp" "/abs") =
  ("exp/specs.json", "exp/specs.json", "images", "/abs").
Proof. reflexivity. Qed.

(** [%] follows the sign of the divisor, as in Python. *)
Example py_mod_cases :
  (res (py_mod 7 5 tt), res (py_mod 7 (-5) tt), res (py_mod (-7) 5 tt), res (py_mod 7 0 tt)) =
  (Ok 2, Ok (-3), Ok 3, Raise ZeroDivisionError).
Proof. reflexivity. Qed.

Lemma checkpoint_schedule_witness :
  1 <= 12 /\ 1 <= 5 /\
  List.filter is_save
    (emitted (train bench_loader bench_model bench_optimizer DiceLoss 12 "exp" 5 bare)) =
  [ EvSaveLatest "exp" 1; EvSaveLatest "exp" 2; EvSaveLatest "exp" 3;
    EvSaveLatest "exp" 4; EvSaveLatest "exp" 5; EvSaveCheckpoint "exp" 5;
    EvSaveLatest "exp" 6; EvSaveLatest "exp" 7; EvSaveLatest "exp" 8;
    EvSaveLatest "exp" 9; EvSaveLatest "exp" 10; EvSaveCheckpoint "exp" 10;
    EvSaveLatest "exp" 11; EvSaveLatest "exp" 12 ].
Proof.
  split; [lia|]. split; [lia|].
  rewrite (proj1 (proj2 (checkpoint_schedule bench_loader bench_model bench_optimizer
                           DiceLoss 12 "exp" 5 bare ltac:(lia) ltac:(lia)))).
  reflexivity.
Defined.

Lemma training_step_order_witness :
  running_loss bench_frame = Some 0%float /\
  dice_loss bench_frame = Some 0%float /\
  focal_loss bench_frame = Some 0%float /\
  emitted (train_batch DiceLoss bench_batch (bare, bench_frame)) =
    [ EvZeroGrad; EvTensorCuda; EvTensorCuda; EvForward;
      EvCriterion DiceLoss; EvSigmoidFocalLoss ReduceMean; EvTensorAdd;
      EvBackward; EvOptimizerStep; EvItem; EvItem; EvItem ] /\
  2 <> 0 /\
  exists n,
    List.filter is_step_event
      (emitted (train bench_loader bench_model bench_optimizer DiceLoss 2 "exp" 2 bare)) =
    concat (repeat (step_events DiceLoss) n).
Proof.
  split; [reflexivity|]. split; [reflexivity|]. split; [reflexivity|].
  split.
  - exact (proj1 (proj2 (proj1 (training_step_order DiceLoss) bench_batch bare
                           bench_frame 0%float 0%float 0%float
                           eq_refl eq_refl eq_refl))).
  - split; [lia|].
    exact (proj2 (training_step_order DiceLoss) bench_loader bench_model bench_optimizer
             2 "exp" 2 bare ltac:(lia)).
Defined.

Lemma flush_once_at_end_witness :
  (2 <> 0 \/ 2 < 1) /\
  res (train bench_loader bench_model bench_optimizer DiceLoss 2 "exp" 2 bare) = Ok tt /\
  length (List.filter is_flush
            (emitted (train bench_loader bench_model bench_optimizer DiceLoss 2 "exp" 2 bare)))
    = 1%nat.
Proof.
  assert (H : 2 <> 0 \/ 2 < 1) by (left; lia).
  split; [exact H|].
  pose proof (proj1 (proj2 (flush_once_at_end bench_loader bench_model bench_optimizer
                              DiceLoss 2 "exp" 2 bare)) H) as (Hres & _ & Hone).
  split; [exact Hres | exact Hone].
Defined.

Lemma epoch_metrics_reset_witness :
  2 <> 0 /\ 1 <= 2 <= 2 /\
  List.filter (is_scalar_of 2)
    (emitted (train bench_loader bench_model bench_optimizer DiceLoss 2 "exp" 2 bare)) =
  report_events
    (fold_left add_step
       (epoch_steps bench_loader DiceLoss
          (epochs_flow bench_loader DiceLoss (range 1 2)
             (start bench_model bench_optimizer bare)))
       zero_sums) 2.
Proof.
  split; [lia|]. split; [lia|].
  exact (proj2 (epoch_metrics_reset bench_loader DiceLoss "exp" 2)
           bench_model bench_optimizer 2 bare 2 ltac:(lia) ltac:(lia)).
Defined.

Lemma backpropagated_loss_two_terms_witness :
  holds_sums bench_frame zero_sums /\
  backpropagates two_term_loss DiceLoss bench_batch bare bench_frame /\
  List.filter is_loss_eval (emitted (train_batch DiceLoss bench_batch (bare, bench_frame))) =
    [EvCriterion DiceLoss; EvSigmoidFocalLoss ReduceMean].
Proof.
  assert (H : holds_sums bench_frame zero_sums) by (repeat split).
  split; [exact H|].
  pose proof (backpropagated_loss_two_terms DiceLoss bench_batch bare bench_frame
                zero_sums H) as (Hback & _ & Hevals).
  split; [exact Hback | exact Hevals].
Defined.

(** C1, as the specification has it, fails: on the concrete framework the
    step leaves the gradient 0.5, the two-term loss, where [backward] on
    the three-term sum would leave 5. *)
Lemma three_term_objective_refuted :
  ~ backpropagates three_term_loss DiceLoss bench_batch bare bench_frame.
Proof.
  intros Hback.
  apply (f_equal (fun m : float * float => PrimFloat.eqb (snd m) 0.5)) in Hback.
  vm_compute in Hback. discriminate Hback.
Qed.

Lemma missing_experiment_dir_witness :
  ("exp" ∉ w_dirs bare) /\
  res (main "exp" bare) = Ok (RetInt 0) /\
  List.filter is_setup (emitted (main "exp" bare)) = [].
Proof.
  assert (H : "exp" ∉ w_dirs bare) by (cbn; apply not_elem_of_empty).
  split; [exact H|].
  pose proof (missing_experiment_dir "exp" bare H) as (Hres & _ & Hsetup & _).
  split; [exact Hres | exact Hsetup].
Defined.

Lemma unrecognized_loss_returns_sentinel_witness :
  res (main "exp" (prepared "MSE")) = Ok (RetInt 0) /\
  List.filter is_construction (emitted (main "exp" (prepared "MSE"))) =
    [EvUnet2D 1 1; EvAdam 0.5%float].
Proof.
  assert (Hdir : "exp" ∈ w_dirs (prepared "MSE")) by (cbn; apply elem_of_singleton_2; reflexivity).
  pose proof (unrecognized_loss_returns_sentinel "exp" (prepared "MSE") (specs "MSE")
                Hdir eq_refl eq_refl eq_refl
                ltac:(discriminate) ltac:(discriminate)) as (Hres & _ & Hbuilt).
  split; [exact Hres | exact Hbuilt].
Defined.

(** C2, as the specification has it, fails: with the loss name "MSE" the
    run has built the model and the optimizer before it returns. *)
Lemma unrecognized_loss_builds_model :
  LossFunction (specs "MSE") <> "Dice" /\
  LossFunction (specs "MSE") <> "BCE" /\
  ~ (fails_fast (main "exp" (prepared "MSE")) /\
     builds_nothing (main "exp" (prepared "MSE"))).
Proof.
  split; [discriminate|]. split; [discriminate|].
  intros (_ & Hbuilt). unfold builds_nothing in Hbuilt.
  vm_compute in Hbuilt. discriminate Hbuilt.
Qed.

Lemma missing_specs_raises_witness :
  ("exp" ∈ w_dirs no_specs) /\
  w_files no_specs !! os_path_join "exp" "specs.json" = None /\
  res (main "exp" no_specs) = Raise FileNotFoundError /\
  List.filter is_print (emitted (main "exp" no_specs)) = [].
Proof.
  assert (Hdir : "exp" ∈ w_dirs no_specs) by (cbn; apply elem_of_singleton_2; reflexivity).
  split; [exact Hdir|]. split; [reflexivity|].
  pose proof (missing_specs_raises "exp" no_specs Hdir eq_refl) as (_ & Hprint & _ & Hopen).
  split; [|exact Hprint].
  destruct (Hopen eq_refl eq_refl) as ([Hres|Hres] & _); [exact Hres|].
  vm_compute in Hres. discriminate Hres.
Defined.

(** C3, as the specification has it, fails: without [specs.json] the run
    raises [FileNotFoundError] and has printed nothing. *)
Lemma missing_specs_not_reported :
  ("exp" ∈ w_dirs no_specs) /\
  w_files no_specs !! "exp/specs.json" = None /\
  ~ (fails_fast (main "exp" no_specs) /\ builds_nothing (main "exp" no_specs)).
Proof.
  split; [cbn; apply elem_of_singleton_2; reflexivity|]. split; [reflexivity|].
  intros (((v & Hres) & _) & _). vm_compute in Hres. discriminate Hres.
Qed.

Lemma seeding_determinism_witness :
  w_dirs (prepared "BCE") = w_dirs (prepared_elsewhere "BCE") /\
  w_files (prepared "BCE") = w_files (prepared_elsewhere "BCE") /\
  w_rng (prepared "BCE") <> w_rng (prepared_elsewhere "BCE") /\
  main "exp" (prepared "BCE") = main "exp" (prepared_elsewhere "BCE").
Proof.
  split; [reflexivity|]. split; [reflexivity|]. split; [discriminate|].
  exact (proj2 (seeding_determinism "exp") (prepared "BCE") (prepared_elsewhere "BCE")
           eq_refl eq_refl).
Defined.

Lemma dice_metric_records_criterion_witness :
  LossFunction (specs "BCE") = "BCE" /\
  List.filter (is_scalar_at "Loss/dice" 2) (emitted (main "exp" (prepared "BCE"))) =
  [ EvAddScalar "Loss/dice"
      (fold_left
         (fun a s => (a + item (bce_with_logits_forward (step_logits s) (step_mask s)))%float)
         (epoch_steps (fst (main_objects (specs "BCE") seeded)) BCEWithLogitsLoss
            (epochs_flow (fst (main_objects (specs "BCE") seeded)) BCEWithLogitsLoss
               (range 1 2) (snd (main_objects (specs "BCE") seeded))))
         0%float)
      2 ].
Proof.
  split; [reflexivity|].
  assert (Hdir : "exp" ∈ w_dirs (prepared "BCE")) by (cbn; apply elem_of_singleton_2; reflexivity).
  exact (proj2 dice_metric_records_criterion "exp" (prepared "BCE") (specs "BCE") 2
           Hdir eq_refl eq_refl eq_refl eq_refl ltac:(discriminate) ltac:(cbn; lia)).
Defined.

End OnBench.

(** ** More on [train] *)

Section TrainMore.
Context {T : Torch} {W : Workspace}.

Lemma with_rng_same (w : world) : with_rng (w_rng w) w = w.
Proof. destruct w; reflexivity. Qed.

(** Every run of [train], in one equation. *)
Lemma train_cases train_loader m o loss_fn epochs exp_dir save_every w :
  train train_loader m o loss_fn epochs exp_dir save_every w =
  if ((save_every =? 0) && (1 <=? epochs))%bool
  then (Raise ZeroDivisionError,
        with_rng (the_rng (fst (epoch_flow train_loader loss_fn (start m o w)))) w,
        epoch_events train_loader loss_fn exp_dir 0 1 (start m o w))
  else (Ok tt,
        with_rng (the_rng (epochs_flow train_loader loss_fn (range 1 (epochs + 1))
                             (start m o w))) w,
        epochs_events train_loader loss_fn exp_dir save_every
          (range 1 (epochs + 1)) (start m o w) ++ [EvFlush]).
Proof.
  destruct (Z.eqb_spec save_every 0) as [->|Hk]; cbn [andb].
  - destruct (Z.leb_spec 1 epochs) as [He|He].
    + apply train_run_zero. exact He.
    + rewrite train_run_empty by exact He.
      unfold range. replace (Z.to_nat (epochs + 1 - 1)) with 0%nat by lia.
      cbn. rewrite with_rng_same. reflexivity.
  - apply train_run. exact Hk.
Qed.

Lemma for_each_ext {S X} (xs : list X) (f g : X -> M S unit) :
  (forall x s, f x s = g x s) ->
  forall s, for_each xs f s = for_each xs g s.
Proof.
  intros Hfg. induction xs as [|x xs IH]; intros s; [reflexivity|].
  cbn [for_each]. unfold bind. rewrite Hfg.
  destruct (g x s) as [[[u|e] s1] t1]; [|reflexivity].
  rewrite IH. reflexivity.
Qed.

Lemma save_events_opp exp_dir save_every epoch :
  save_events exp_dir (- save_every) epoch = save_events exp_dir save_every epoch.
Proof.
  unfold save_events.
  destruct (Z.eqb_spec save_every 0) as [->|Hk]; [reflexivity|].
  destruct (Z.eqb_spec (- save_every) 0) as [H0|_]; [lia|].
  destruct (Z.eqb_spec (epoch mod save_every) 0) as [Hm|Hm];
    destruct (Z.eqb_spec (epoch mod - save_every) 0) as [Hm'|Hm']; try reflexivity.
  - exfalso. apply Hm'. apply Z.mod_opp_r_z; assumption.
  - exfalso. apply Hm.
    rewrite <- (Z.opp_involutive save_every) at 1.
    apply Z.mod_opp_r_z; [lia | exact Hm'].
Qed.


(** X2. With [save_every = 0] and at least one epoch, [train] stops at the
    end of the first epoch: that epoch has trained and logged its three
    metrics, its [save_latest] is the last call made, and there is no
    checkpoint, no second epoch and no flush. *)
Theorem zero_interval_stops_after_first_epoch
    train_loader m o loss_fn epochs exp_dir w :
  1 <= epochs ->
  let run := train train_loader m o loss_fn epochs exp_dir 0 w in
  res run = Raise ZeroDivisionError /\
  (exists before, emitted run = before ++ [EvSaveLatest exp_dir 1]) /\
  List.filter is_save (emitted run) = [EvSaveLatest exp_dir 1] /\
  List.filter (is_scalar_of 1) (emitted run) =
    report_events
      (fold_left add_step (epoch_steps train_loader loss_fn (start m o w)) zero_sums) 1 /\
  List.filter is_net_train (emitted run) = [EvNetTrain] /\
  List.filter is_flush (emitted run) = [].
Proof.
  intros He run. subst run. rewrite train_run_zero by exact He.
  unfold res, emitted; cbn [fst snd].
  split; [reflexivity|]. split.
  - set (acc := snd (epoch_flow train_loader loss_fn (start m o w))).
    exists (EvNetTrain ::
            flat_map (fun _ => step_events loss_fn)
              (epoch_batches train_loader (start m o w)) ++
            report_events acc 1 ++
            [EvPrint [Lit "Epoch:"; FmtInt 1; Lit " | Running Loss:";
                      FmtFloat (overall acc)]]).
    unfold epoch_events. fold acc. cbn [save_events Z.eqb app].
    f_equal. rewrite <- !app_assoc. reflexivity.
  - split; [apply epoch_saves|]. split.
    + rewrite epoch_scalars, Z.eqb_refl, epoch_flow_sums. reflexivity.
    + split; [|apply epoch_flushes].
      rewrite filter_epoch_events.
      rewrite (filter_none_save_events _ _ is_net_train) by reflexivity.
      cbn [List.filter step_events report_events is_net_train].
      rewrite flat_map_nil. reflexivity.
Qed.

(** X3. The sign of [save_every] does not matter: [train] with [-k] is the
    same run as with [k], since [epoch % -k == 0] exactly when
    [epoch % k == 0]. *)
Theorem negative_interval_same_run
    train_loader m o loss_fn epochs exp_dir save_every w :
  train train_loader m o loss_fn epochs exp_dir (- save_every) w =
  train train_loader m o loss_fn epochs exp_dir save_every w.
Proof.
  unfold train, train_loop, bind.
  rewrite (for_each_ext _ (train_epoch train_loader loss_fn exp_dir (- save_every))
             (train_epoch train_loader loss_fn exp_dir save_every)); [reflexivity|].
  intros epoch [w1 f1]. rewrite !train_epoch_run.
  unfold epoch_events. rewrite save_events_opp.
  destruct (Z.eqb_spec save_every 0) as [->|Hk]; [reflexivity|].
  destruct (Z.eqb_spec (- save_every) 0) as [H0|_]; [lia | reflexivity].
Qed.

(** X4. An epoch for which the loader yields no batch logs 0.0 for each of
    the three metrics. *)
Theorem empty_epoch_reports_zero
    train_loader m o loss_fn epochs exp_dir save_every w epoch :
  save_every <> 0 -> 1 <= epoch <= epochs ->
  epoch_batches train_loader
    (epochs_flow train_loader loss_fn (range 1 epoch) (start m o w)) = [] ->
  List.filter (is_scalar_of epoch)
    (emitted (train train_loader m o loss_fn epochs exp_dir save_every w)) =
  [ EvAddScalar "Loss/overall" 0%float epoch;
    EvAddScalar "Loss/dice" 0%float epoch;
    EvAddScalar "Loss/focal" 0%float epoch ].
Proof.
  intros Hk He Hempty.
  rewrite (train_scalars_at train_loader m o loss_fn epochs exp_dir save_every w
             epoch Hk He).
  unfold epoch_steps. unfold epoch_batches in Hempty.
  destruct (loader_iter _ _) as [batches r]. cbn [fst] in Hempty. subst batches.
  reflexivity.
Qed.

End TrainMore.

(** ** Counting and ordering the events of [train] *)

Section TrainOrder.
Context {T : Torch} {W : Workspace}.

Lemma step_events_count train_loader loss_fn exp_dir save_every es : forall x,
  List.filter is_step_event
    (epochs_events train_loader loss_fn exp_dir save_every es x) =
  concat (repeat (step_events loss_fn) (batches_seen train_loader loss_fn es x)).
Proof.
  induction es as [|e es IH]; intros x; [reflexivity|].
  cbn [epochs_events batches_seen].
  rewrite List.filter_app, epoch_steps_events, IH.
  rewrite flat_map_const_repeat, repeat_app, concat_app. reflexivity.
Qed.

Lemma filter_concat_repeat {A} (p : A -> bool) (l : list A) (n : nat) :
  length (List.filter p (concat (repeat l n))) = (n * length (List.filter p l))%nat.
Proof.
  induction n as [|n IH]; [reflexivity|].
  cbn [repeat concat]. rewrite List.filter_app, length_app, IH. reflexivity.
Qed.

Lemma count_step_kind (p : event -> bool) train_loader m o loss_fn epochs exp_dir
    save_every w :
  save_every <> 0 ->
  (forall ev, p ev = true -> is_step_event ev = true) ->
  length (List.filter p
            (emitted (train train_loader m o loss_fn epochs exp_dir save_every w))) =
  (batches_seen train_loader loss_fn (range 1 (epochs + 1)) (start m o w) *
   length (List.filter p (step_events loss_fn)))%nat.
Proof.
  intros Hk Hp.
  rewrite <- (filter_implied p is_step_event) by exact Hp.
  rewrite train_run by exact Hk. unfold emitted; cbn [snd].
  rewrite List.filter_app. cbn [List.filter is_step_event]. rewrite app_nil_r.
  rewrite step_events_count. apply filter_concat_repeat.
Qed.

(** X5. Over a run of [train], every batch the loader yields gets exactly
    one [zero_grad], one forward pass, one backward pass and one optimizer
    step, and three [item] reads: with [n] batches over all epochs, the
    run makes [n] calls of each of the first four and [3n] of the last. *)
Theorem one_update_per_batch train_loader m o loss_fn epochs exp_dir save_every w :
  save_every <> 0 ->
  let t := emitted (train train_loader m o loss_fn epochs exp_dir save_every w) in
  let n := batches_seen train_loader loss_fn (range 1 (epochs + 1)) (start m o w) in
  length (List.filter is_zero_grad t) = n /\
  length (List.filter is_forward t) = n /\
  length (List.filter is_backward t) = n /\
  length (List.filter is_optimizer_step t) = n /\
  length (List.filter is_item t) = (3 * n)%nat.
Proof.
  intros Hk t n. subst t n.
  repeat split;
    (rewrite count_step_kind;
     [ cbn [List.filter step_events is_zero_grad is_forward is_backward
            is_optimizer_step is_item length]; lia
     | exact Hk
     | intros []; cbn; congruence ]).
Qed.

(** *** Snapshots *)

Lemma no_checkpoint_follows t :
  List.filter is_checkpoint t = [] -> checkpoint_follows_latest t.
Proof.
  intros Hnone pre post d epoch ->.
  rewrite List.filter_app in Hnone. cbn in Hnone.
  apply app_eq_nil in Hnone. destruct Hnone as [_ Hnone]. discriminate Hnone.
Qed.

Lemma checkpoint_follows_app a b :
  checkpoint_follows_latest a ->
  checkpoint_follows_latest b ->
  (forall d epoch rest, b <> EvSaveCheckpoint d epoch :: rest) ->
  checkpoint_follows_latest (a ++ b).
Proof.
  intros Ha Hb Hhead pre post d epoch Heq.
  apply List.app_eq_app in Heq. destruct Heq as (l & [(Ha' & Hl) | (Hpre & Hb')]).
  - destruct l as [|c l].
    + cbn in Hl. exfalso. exact (Hhead d epoch post (eq_sym Hl)).
    + cbn in Hl. injection Hl as <- Hpost.
      exact (Ha pre l d epoch Ha').
  - destruct (Hb l post d epoch Hb') as (l' & ->).
    exists (a ++ l'). rewrite Hpre, app_assoc. reflexivity.
Qed.

Lemma save_events_follow exp_dir save_every epoch :
  checkpoint_follows_latest (save_events exp_dir save_every epoch).
Proof.
  unfold save_events.
  destruct (save_every =? 0); [apply no_checkpoint_follows; reflexivity|].
  destruct (epoch mod save_every =? 0); [|apply no_checkpoint_follows; reflexivity].
  intros pre post d e Heq.
  destruct pre as [|x [|y pre]]; cbn in Heq.
  - discriminate Heq.
  - injection Heq as <- <- <- _. exists []. reflexivity.
  - injection Heq as _ _ Heq. destruct pre; discriminate Heq.
Qed.

Lemma epoch_events_follow train_loader loss_fn exp_dir save_every epoch x :
  checkpoint_follows_latest
    (epoch_events train_loader loss_fn exp_dir save_every epoch x).
Proof.
  set (acc := snd (epoch_flow train_loader loss_fn x)).
  replace (epoch_events train_loader loss_fn exp_dir save_every epoch x) with
    ((EvNetTrain ::
      flat_map (fun _ => step_events loss_fn) (epoch_batches train_loader x) ++
      report_events acc epoch ++
      [EvPrint [Lit "Epoch:"; FmtInt epoch; Lit " | Running Loss:";
                FmtFloat (overall acc)]]) ++
     save_events exp_dir save_every epoch).
  - apply checkpoint_follows_app.
    + apply no_checkpoint_follows. cbn [List.filter is_checkpoint].
      rewrite !List.filter_app, filter_flat_map_const.
      cbn [List.filter step_events report_events is_checkpoint].
      rewrite flat_map_nil. reflexivity.
    + apply save_events_follow.
    + intros d e rest. unfold save_events. discriminate.
  - unfold epoch_events. fold acc. cbn [app]. f_equal.
    rewrite <- !app_assoc. reflexivity.
Qed.

Lemma epochs_events_follow train_loader loss_fn exp_dir save_every es : forall x,
  checkpoint_follows_latest
    (epochs_events train_loader loss_fn exp_dir save_every es x).
Proof.
  induction es as [|e es IH]; intros x.
  - apply no_checkpoint_follows. reflexivity.
  - cbn [epochs_events]. apply checkpoint_follows_app.
    + apply epoch_events_follow.
    + apply IH.
    + intros d epoch rest. destruct es; cbn [epochs_events epoch_events app]; discriminate.
Qed.

(** X6. In every run of [train], whatever its arguments, a call of
    [save_checkpoint] comes directly after the [save_latest] of the same
    directory and epoch: nothing, and in particular no training step,
    happens between the two snapshots of an epoch. *)
Theorem checkpoint_directly_after_latest
    train_loader m o loss_fn epochs exp_dir save_every w :
  checkpoint_follows_latest
    (emitted (train train_loader m o loss_fn epochs exp_dir save_every w)).
Proof.
  rewrite train_cases.
  destruct ((save_every =? 0) && (1 <=? epochs))%bool; unfold emitted; cbn [snd].
  - apply epoch_events_follow.
  - apply checkpoint_follows_app.
    + apply epochs_events_follow.
    + apply no_checkpoint_follows. reflexivity.
    + discriminate.
Qed.

(** *** The printed line and the logged metric *)

Lemma flat_map_steps_nil {A B} (f : event -> list B) loss_fn (xs : list A) :
  flat_map f (step_events loss_fn) = [] ->
  flat_map f (flat_map (fun _ => step_events loss_fn) xs) = [].
Proof.
  intros Hf. induction xs as [|x xs IH]; [reflexivity|].
  cbn [flat_map]. rewrite List.flat_map_app, Hf, IH. reflexivity.
Qed.

Lemma flat_map_save_events_nil {B} (f : event -> list B) exp_dir save_every epoch :
  (forall d e, f (EvSaveLatest d e) = []) ->
  (forall d e, f (EvSaveCheckpoint d e) = []) ->
  flat_map f (save_events exp_dir save_every epoch) = [].
Proof.
  intros H1 H2. unfold save_events. cbn [flat_map]. rewrite H1.
  destruct (save_every =? 0); [reflexivity|].
  destruct (epoch mod save_every =? 0); cbn [flat_map]; rewrite ?H2; reflexivity.
Qed.

Lemma epoch_printed_and_logged train_loader loss_fn exp_dir save_every epoch x :
  let pair := [(epoch, overall (snd (epoch_flow train_loader loss_fn x)))] in
  flat_map printed_running_loss
    (epoch_events train_loader loss_fn exp_dir save_every epoch x) = pair /\
  flat_map logged_overall
    (epoch_events train_loader loss_fn exp_dir save_every epoch x) = pair.
Proof.
  unfold epoch_events. cbn zeta.
  split.
  - cbn [flat_map printed_running_loss app].
    rewrite !List.flat_map_app, flat_map_steps_nil by reflexivity.
    cbn [flat_map report_events printed_running_loss app].
    rewrite flat_map_save_events_nil by reflexivity. reflexivity.
  - cbn [flat_map logged_overall app].
    rewrite !List.flat_map_app, flat_map_steps_nil by reflexivity.
    cbn [flat_map report_events logged_overall app].
    rewrite flat_map_save_events_nil by reflexivity. reflexivity.
Qed.

Lemma epochs_printed_and_logged train_loader loss_fn exp_dir save_every es : forall x,
  flat_map printed_running_loss
    (epochs_events train_loader loss_fn exp_dir save_every es x) =
  flat_map logged_overall
    (epochs_events train_loader loss_fn exp_dir save_every es x).
Proof.
  induction es as [|e es IH]; intros x; [reflexivity|].
  cbn [epochs_events]. rewrite !List.flat_map_app, IH.
  destruct (epoch_printed_and_logged train_loader loss_fn exp_dir save_every e x)
    as (-> & ->).
  reflexivity.
Qed.

(** X7. The "Running Loss" lines [train] prints and the values it logs
    under "Loss/overall" agree: epoch for epoch, in the same order, the
    printed number is the logged number. *)
Theorem printed_loss_is_logged_overall
    train_loader m o loss_fn epochs exp_dir save_every w :
  let t := emitted (train train_loader m o loss_fn epochs exp_dir save_every w) in
  flat_map printed_running_loss t = flat_map logged_overall t.
Proof.
  cbn zeta. rewrite train_cases.
  destruct ((save_every =? 0) && (1 <=? epochs))%bool; unfold emitted; cbn [snd].
  - destruct (epoch_printed_and_logged train_loader loss_fn exp_dir 0 1 (start m o w))
      as (-> & ->).
    reflexivity.
  - rewrite !List.flat_map_app, epochs_printed_and_logged. reflexivity.
Qed.

End TrainOrder.

(** ** More on [main] *)

Section MainMore.
Context {T : Torch} {W : Workspace}.

(** [main] from the construction of the model on, in one equation. *)
Lemma main_run_cases exp_dir specs w :
  main_run exp_dir specs w =
  match select_criterion (LossFunction specs) with
  | None =>
      (Ok (RetInt 0), with_rng (snd (Unet2D 1 1 (w_rng w))) w,
       build_events specs ++ [unrecognized_message])
  | Some c =>
      let setup := main_objects specs (w_rng w) in
      match train (fst setup) (the_model (snd setup)) (the_optimizer (snd setup))
              c (Epochs specs) exp_dir (SaveEvery specs)
              (with_rng (the_rng (snd setup)) w) with
      | (r, w1, t) =>
          (match r with Ok _ => Ok RetNone | Raise e => Raise e end, w1,
           build_events specs ++ selection_events c ++ launch_events exp_dir specs ++ t)
      end
  end.
Proof.
  unfold select_criterion, main_run, main_objects.
  destruct (String.eqb (LossFunction specs) "Dice").
  - unfold_main_calls. reduce_world.
    destruct (Unet2D 1 1 (w_rng w)) as [m r1]. reduce_world.
    destruct (sk_loader _ _ _ _ _ r1) as [train_loader r2]. reduce_world.
    cbn [the_model the_optimizer the_rng].
    destruct (train _ _ _ _ _ _ _ _) as [[[u|e] w1] t]; cbn [app];
      rewrite ?app_nil_r; reflexivity.
  - destruct (String.eqb (LossFunction specs) "BCE").
    + unfold_main_calls. reduce_world.
      destruct (Unet2D 1 1 (w_rng w)) as [m r1]. reduce_world.
      destruct (sk_loader _ _ _ _ _ r1) as [train_loader r2]. reduce_world.
      cbn [the_model the_optimizer the_rng].
      destruct (train _ _ _ _ _ _ _ _) as [[[u|e] w1] t]; cbn [app];
        rewrite ?app_nil_r; reflexivity.
    + unfold_main_calls. reduce_world.
      destruct (Unet2D 1 1 (w_rng w)) as [m r1]. reduce_world.
      reflexivity.
Qed.

(** [main] from the opening of the configuration on, in one equation. *)
Lemma main_load_cases exp_dir w :
  (specs <- load_specs (os_path_join exp_dir "specs.json") ;; main_run exp_dir specs) w =
  match w_files w !! os_path_join exp_dir "specs.json" with
  | Some specs =>
      match main_run exp_dir specs w with
      | (r, w1, t) => (r, w1, EvOpen (os_path_join exp_dir "specs.json") :: t)
      end
  | None =>
      (if bool_decide (os_path_join exp_dir "specs.json" ∈ w_dirs w)
       then Raise IsADirectoryError else Raise FileNotFoundError,
       w, [EvOpen (os_path_join exp_dir "specs.json")])
  end.
Proof.
  unfold bind. rewrite load_specs_run.
  destruct (w_files w !! os_path_join exp_dir "specs.json") as [specs|].
  - destruct (main_run exp_dir specs w) as [[r w1] t]. reflexivity.
  - destruct (bool_decide _); reflexivity.
Qed.

(** The two ways [main] leaves its directory setup: [os.makedirs] raises,
    or the configuration is opened next. *)
Lemma main_shape exp_dir w :
  exp_dir ∈ w_dirs w ->
  exists w1 mk,
    Forall (fun ev => is_makedirs ev = true) mk /\
    w_files w1 = w_files w /\ w_dirs w ⊆ w_dirs w1 /\
    (main exp_dir w = (Raise FileExistsError, w1, seed_events ++ mk) \/
     main exp_dir w =
       match (specs <- load_specs (os_path_join exp_dir "specs.json") ;;
              main_run exp_dir specs) w1 with
       | (r, w2, t) => (r, w2, seed_events ++ mk ++ t)
       end).
Proof.
  intros Hdir. unfold main.
  set (rest := (specs <- load_specs _ ;; main_run exp_dir specs)).
  set (ckpt := os_path_join exp_dir checkpoint_subdir).
  set (eval := os_path_join exp_dir evaluation_subdir).
  unfold_main_calls. reduce_world.
  rewrite (bool_decide_eq_true_2 _ Hdir). reduce_world.
  destruct (bool_decide (ckpt ∈ w_dirs w)); reduce_world.
  - destruct (bool_decide (eval ∈ w_dirs w)); reduce_world.
    + exists (with_rng seeded w), [].
      split; [constructor|]. split; [reflexivity|]. split; [reflexivity|].
      right. destruct (rest _) as [[r w2] t]. reflexivity.
    + destruct (w_files w !! eval); reduce_world.
      * exists (with_rng seeded w), [EvMakedirs eval].
        split; [repeat constructor|]. split; [reflexivity|]. split; [reflexivity|].
        left. reflexivity.
      * exists (with_dirs ({[eval]} ∪ w_dirs w) (with_rng seeded w)), [EvMakedirs eval].
        split; [repeat constructor|]. split; [reflexivity|].
        split; [cbn; apply union_subseteq_r|].
        right. destruct (rest _) as [[r w2] t]. reflexivity.
  - destruct (w_files w !! ckpt); reduce_world.
    + exists (with_rng seeded w), [EvMakedirs ckpt].
      split; [repeat constructor|]. split; [reflexivity|]. split; [reflexivity|].
      left. reflexivity.
    + destruct (bool_decide (eval ∈ {[ckpt]} ∪ w_dirs w)); reduce_world.
      * exists (with_dirs ({[ckpt]} ∪ w_dirs w) (with_rng seeded w)), [EvMakedirs ckpt].
        split; [repeat constructor|]. split; [reflexivity|].
        split; [cbn; apply union_subseteq_r|].
        right. destruct (rest _) as [[r w2] t]. reflexivity.
      * destruct (w_files w !! eval); reduce_world.
        -- exists (with_dirs ({[ckpt]} ∪ w_dirs w) (with_rng seeded w)),
             [EvMakedirs ckpt; EvMakedirs eval].
           split; [repeat constructor|]. split; [reflexivity|].
           split; [cbn; apply union_subseteq_r|].
           left. reflexivity.
        -- exists (with_dirs ({[eval]} ∪ ({[ckpt]} ∪ w_dirs w)) (with_rng seeded w)),
             [EvMakedirs ckpt; EvMakedirs eval].
           split; [repeat constructor|]. split; [reflexivity|].
           split; [cbn; etrans; apply union_subseteq_r|].
           right. destruct (rest _) as [[r w2] t]. reflexivity.
Qed.

(** *** What the events of [train] and of [main] can be *)

Lemma filter_nil_Forall (p : event -> bool) (t : list event) :
  Forall (fun ev => p ev = false) t -> List.filter p t = [].
Proof.
  induction 1 as [|ev t Hev _ IH]; [reflexivity|].
  cbn [List.filter]. rewrite Hev. exact IH.
Qed.

Lemma Forall_steps {A} (Q : event -> Prop) loss_fn (xs : list A) :
  Forall Q (step_events loss_fn) ->
  Forall Q (flat_map (fun _ => step_events loss_fn) xs).
Proof.
  intros HQ. induction xs as [|x xs IH]; [constructor|].
  cbn [flat_map]. apply Forall_app. split; assumption.
Qed.

(** A property of events that holds of the events of a step and of the
    other calls [train] can make holds of all the events of an epoch. *)
Lemma Forall_epoch_events (Q : event -> Prop) train_loader loss_fn exp_dir
    save_every epoch x :
  Forall Q (step_events loss_fn) ->
  (forall ev, is_training ev = true -> is_step_event ev = false -> Q ev) ->
  (forall msg, Q (EvPrint msg)) ->
  Forall Q (epoch_events train_loader loss_fn exp_dir save_every epoch x).
Proof.
  intros Hs Ht Hp. unfold epoch_events.
  constructor; [apply Ht; reflexivity|].
  apply Forall_app. split; [apply Forall_steps; exact Hs|].
  apply Forall_app. split.
  - unfold report_events.
    repeat (constructor; [apply Ht; reflexivity|]). constructor.
  - constructor; [apply Hp|]. unfold save_events.
    constructor; [apply Ht; reflexivity|].
    destruct (save_every =? 0); [constructor|].
    destruct (epoch mod save_every =? 0); [|constructor].
    constructor; [apply Ht; reflexivity | constructor].
Qed.

Lemma Forall_epochs_events (Q : event -> Prop) train_loader loss_fn exp_dir
    save_every es :
  Forall Q (step_events loss_fn) ->
  (forall ev, is_training ev = true -> is_step_event ev = false -> Q ev) ->
  (forall msg, Q (EvPrint msg)) ->
  forall x,
  Forall Q (epochs_events train_loader loss_fn exp_dir save_every es x).
Proof.
  intros Hs Ht Hp. induction es as [|e es IH]; intros x; [constructor|].
  cbn [epochs_events]. apply Forall_app. split.
  - apply Forall_epoch_events; assumption.
  - apply IH.
Qed.

(** ... and of all the events of a run of [train]. *)
Lemma Forall_train_events (Q : event -> Prop) train_loader m o loss_fn epochs
    exp_dir save_every w :
  Forall Q (step_events loss_fn) ->
  (forall ev, is_training ev = true -> is_step_event ev = false -> Q ev) ->
  (forall msg, Q (EvPrint msg)) ->
  Forall Q (emitted (train train_loader m o loss_fn epochs exp_dir save_every w)).
Proof.
  intros Hs Ht Hp. rewrite train_cases.
  destruct ((save_every =? 0) && (1 <=? epochs))%bool; unfold emitted; cbn [snd].
  - apply Forall_epoch_events; assumption.
  - apply Forall_app. split.
    + apply Forall_epochs_events; assumption.
    + constructor; [apply Ht; reflexivity | constructor].
Qed.

Lemma Forall_makedirs (Q : event -> Prop) (mk : list event) :
  (forall path, Q (EvMakedirs path)) ->
  Forall (fun ev => is_makedirs ev = true) mk -> Forall Q mk.
Proof.
  intros HQ Hmk. induction Hmk as [|ev mk Hev _ IH]; [constructor|].
  constructor; [|exact IH].
  destruct ev; try discriminate Hev. apply HQ.
Qed.

(** A property that holds of every event [main] can produce after its
    directory setup holds of all events from the opening of the
    configuration on. *)
Lemma Forall_load_events (Q : event -> Prop) exp_dir w :
  (forall ev, is_makedirs ev = false -> Q ev) ->
  Forall Q (emitted ((specs <- load_specs (os_path_join exp_dir "specs.json") ;;
                      main_run exp_dir specs) w)).
Proof.
  intros HQ. rewrite main_load_cases.
  destruct (w_files w !! os_path_join exp_dir "specs.json") as [specs|].
  - rewrite main_run_cases.
    destruct (select_criterion (LossFunction specs)) as [c|].
    + cbn zeta.
      pose proof (Forall_train_events Q
                    (fst (main_objects specs (w_rng w)))
                    (the_model (snd (main_objects specs (w_rng w))))
                    (the_optimizer (snd (main_objects specs (w_rng w))))
                    c (Epochs specs) exp_dir (SaveEvery specs)
                    (with_rng (the_rng (snd (main_objects specs (w_rng w)))) w)) as Htrain.
      destruct (train _ _ _ _ _ _ _ _) as [[r w1] t].
      unfold emitted in *; cbn [snd] in *.
      constructor; [apply HQ; reflexivity|].
      repeat (apply Forall_app; split).
      * unfold build_events. repeat (constructor; [apply HQ; reflexivity|]). constructor.
      * unfold selection_events. repeat (constructor; [apply HQ; reflexivity|]). constructor.
      * unfold launch_events. repeat (constructor; [apply HQ; reflexivity|]). constructor.
      * apply Htrain.
        -- unfold step_events. repeat (constructor; [apply HQ; reflexivity|]). constructor.
        -- intros ev Hev _. apply HQ. destruct ev; try discriminate Hev; reflexivity.
        -- intros msg. apply HQ. reflexivity.
    + unfold emitted; cbn [snd].
      constructor; [apply HQ; reflexivity|].
      apply Forall_app. split.
      * unfold build_events. repeat (constructor; [apply HQ; reflexivity|]). constructor.
      * constructor; [apply HQ; reflexivity | constructor].
  - unfold emitted; cbn [snd]. constructor; [apply HQ; reflexivity | constructor].
Qed.

(** *** Where [main] leaves the machine *)

Lemma train_final train_loader m o loss_fn epochs exp_dir save_every w :
  exists r,
    final (train train_loader m o loss_fn epochs exp_dir save_every w) = with_rng r w.
Proof.
  rewrite train_cases.
  destruct ((save_every =? 0) && (1 <=? epochs))%bool; eexists; reflexivity.
Qed.

Lemma main_run_final exp_dir specs w :
  exists r, final (main_run exp_dir specs w) = with_rng r w.
Proof.
  rewrite main_run_cases.
  destruct (select_criterion (LossFunction specs)) as [c|]; [|eexists; reflexivity].
  cbn zeta.
  destruct (train_final (fst (main_objects specs (w_rng w)))
              (the_model (snd (main_objects specs (w_rng w))))
              (the_optimizer (snd (main_objects specs (w_rng w))))
              c (Epochs specs) exp_dir (SaveEvery specs)
              (with_rng (the_rng (snd (main_objects specs (w_rng w)))) w)) as (r & Hr).
  destruct (train _ _ _ _ _ _ _ _) as [[res1 w1] t].
  unfold final in *; cbn [fst snd] in *. subst w1.
  exists r. reflexivity.
Qed.

Lemma main_load_final exp_dir w :
  exists r,
    final ((specs <- load_specs (os_path_join exp_dir "specs.json") ;;
            main_run exp_dir specs) w) = with_rng r w.
Proof.
  rewrite main_load_cases.
  destruct (w_files w !! os_path_join exp_dir "specs.json") as [specs|].
  - destruct (main_run_final exp_dir specs w) as (r & Hr).
    destruct (main_run exp_dir specs w) as [[res1 w1] t].
    unfold final in *; cbn [fst snd] in *. exists r. exact Hr.
  - exists (w_rng w). unfold final; cbn [fst snd]. symmetry. apply with_rng_same.
Qed.

Lemma dirs_after_setup_spec exp_dir (d : gset string) :
  d ⊆ dirs_after_setup exp_dir d /\
  os_path_join exp_dir checkpoint_subdir ∈ dirs_after_setup exp_dir d /\
  os_path_join exp_dir evaluation_subdir ∈ dirs_after_setup exp_dir d.
Proof.
  unfold dirs_after_setup.
  destruct (bool_decide_reflect (os_path_join exp_dir checkpoint_subdir ∈ d)) as [H1|H1].
  - destruct (bool_decide_reflect (os_path_join exp_dir evaluation_subdir ∈ d))
      as [H2|H2].
    + split; [reflexivity | split; assumption].
    + split; [apply union_subseteq_r|]. split.
      * apply elem_of_union_r. exact H1.
      * apply elem_of_union_l, elem_of_singleton_2. reflexivity.
  - destruct (bool_decide_reflect
                (os_path_join exp_dir evaluation_subdir ∈
                 {[os_path_join exp_dir checkpoint_subdir]} ∪ d))
      as [H2|H2].
    + split; [apply union_subseteq_r|]. split; [|exact H2].
      apply elem_of_union_l, elem_of_singleton_2. reflexivity.
    + split; [etrans; apply union_subseteq_r|]. split.
      * apply elem_of_union_r, elem_of_union_l, elem_of_singleton_2. reflexivity.
      * apply elem_of_union_l, elem_of_singleton_2. reflexivity.
Qed.

Lemma setup_events_done exp_dir (d : gset string) :
  os_path_join exp_dir checkpoint_subdir ∈ d ->
  os_path_join exp_dir evaluation_subdir ∈ d ->
  setup_events exp_dir d = [] /\ dirs_after_setup exp_dir d = d.
Proof.
  intros Hc He. unfold setup_events, dirs_after_setup.
  rewrite (bool_decide_eq_true_2 _ Hc), (bool_decide_eq_true_2 _ He).
  split; reflexivity.
Qed.


(** X9. Running [main] again on the machine a first run has left (the
    experiment directory in place, no regular file in the way of the two
    subdirectories) calls [os.makedirs] no more and leaves the directories
    as they are: the directory setup is idempotent. *)
Theorem second_run_makes_no_directory exp_dir w :
  exp_dir ∈ w_dirs w ->
  w_files w !! os_path_join exp_dir checkpoint_subdir = None ->
  w_files w !! os_path_join exp_dir evaluation_subdir = None ->
  let w' := final (main exp_dir w) in
  List.filter is_makedirs (emitted (main exp_dir w')) = [] /\
  w_dirs (final (main exp_dir w')) = w_dirs w'.
Proof.
  intros Hdir Hc He w'.
  assert (Hw' : w_files w' = w_files w /\
                w_dirs w' = dirs_after_setup exp_dir (w_dirs w)).
  { subst w'. rewrite (main_reaches_specs exp_dir w Hdir Hc He).
    set (w1 := with_dirs _ (with_rng seeded w)).
    destruct (main_load_final exp_dir w1) as (r & Hr).
    destruct ((specs <- load_specs _ ;; main_run exp_dir specs) w1) as [[res1 w2] t].
    unfold final in *; cbn [fst snd] in *. subst w2. split; reflexivity. }
  destruct Hw' as (Hfiles & Hdirs).
  destruct (dirs_after_setup_spec exp_dir (w_dirs w)) as (Hsub & Hckpt & Heval).
  rewrite <- Hdirs in Hsub, Hckpt, Heval.
  assert (Hdir' : exp_dir ∈ w_dirs w') by (apply Hsub; exact Hdir).
  rewrite <- Hfiles in Hc, He.
  rewrite (main_reaches_specs exp_dir w' Hdir' Hc He).
  destruct (setup_events_done exp_dir (w_dirs w') Hckpt Heval) as (-> & ->).
  set (w1 := with_dirs (w_dirs w') (with_rng seeded w')).
  pose proof (Forall_load_events (fun ev => is_makedirs ev = false) exp_dir w1
                (fun ev H => H)) as Hnone.
  destruct (main_load_final exp_dir w1) as (r & Hr).
  destruct ((specs <- load_specs _ ;; main_run exp_dir specs) w1) as [[res1 w2] t].
  unfold final, emitted in *; cbn [fst snd] in *. subst w2.
  split; [|reflexivity].
  cbn [app]. rewrite List.filter_app. cbn [List.filter seed_events is_makedirs app].
  apply filter_nil_Forall. exact Hnone.
Qed.

(** X10. A regular file where the checkpoint directory should go makes
    [main] raise [FileExistsError] from [os.makedirs], right after the
    seeding: the configuration is not opened and nothing is built. *)
Theorem blocked_checkpoint_dir_raises exp_dir w :
  exp_dir ∈ w_dirs w ->
  os_path_join exp_dir checkpoint_subdir ∉ w_dirs w ->
  is_Some (w_files w !! os_path_join exp_dir checkpoint_subdir) ->
  main exp_dir w =
    (Raise FileExistsError, with_rng seeded w,
     [ EvNumpySeed 2020; EvTorchSeed 2020; EvCudaSeed 2020;
       EvMakedirs (os_path_join exp_dir checkpoint_subdir) ]).
Proof.
  intros Hdir Hnot [blocker Hfile]. unfold main. unfold_main_calls. reduce_world.
  rewrite (bool_decide_eq_true_2 _ Hdir). reduce_world.
  rewrite (bool_decide_eq_false_2 _ Hnot). reduce_world.
  rewrite Hfile. reflexivity.
Qed.

(** *** What [main] hands back *)

Ltac flatten_lists := repeat (rewrite <- app_assoc || rewrite <- app_comm_cons).

(** X11. What [main] returns tells its caller what happened. A returned
    integer is always 0, and then nothing was trained, logged or saved and
    the last thing [main] did was print a message; a returned [None] means
    the training loop ran to its end, the flush being the last call. *)
Theorem main_return_values exp_dir w :
  let run := main exp_dir w in
  (forall z, res run = Ok (RetInt z) ->
     z = 0 /\
     List.filter is_training (emitted run) = [] /\
     exists before msg, emitted run = before ++ [EvPrint msg]) /\
  (res run = Ok RetNone -> exists before, emitted run = before ++ [EvFlush]).
Proof.
  cbn zeta. destruct (decide (exp_dir ∈ w_dirs w)) as [Hdir|Hdir].
  - destruct (main_shape exp_dir w Hdir) as (w1 & mk & Hmk & _ & _ & [Hrun|Hrun]);
      rewrite Hrun; clear Hrun.
    + unfold res; cbn [fst]. split; [intros z Hz|intros Hz]; discriminate Hz.
    + rewrite main_load_cases.
      destruct (w_files w1 !! os_path_join exp_dir "specs.json") as [specs|].
      * rewrite main_run_cases.
        destruct (select_criterion (LossFunction specs)) as [c|].
        -- cbn zeta. rewrite train_cases.
           destruct ((SaveEvery specs =? 0) && (1 <=? Epochs specs))%bool;
             unfold res, emitted; cbn [fst snd].
           ++ split; [intros z Hz|intros Hz]; discriminate Hz.
           ++ split; [intros z Hz; discriminate Hz|]. intros _.
              eexists (seed_events ++ mk ++
                       EvOpen _ :: build_events specs ++ selection_events c ++
                       launch_events exp_dir specs ++ epochs_events _ _ _ _ _ _).
              flatten_lists. reflexivity.
        -- unfold res, emitted; cbn [fst snd].
           split; [|intros Hz; discriminate Hz].
           intros z Hz. injection Hz as <-. split; [reflexivity|]. split.
           ++ rewrite !List.filter_app.
              rewrite (filter_nil_Forall is_training mk)
                by (apply Forall_makedirs; [reflexivity | exact Hmk]).
              reflexivity.
           ++ exists (seed_events ++ mk ++
                      EvOpen (os_path_join exp_dir "specs.json") :: build_events specs).
              eexists. unfold unrecognized_message. flatten_lists. reflexivity.
      * unfold res; cbn [fst].
        split; [intros z Hz|intros Hz]; destruct (bool_decide _); discriminate Hz.
  - rewrite (main_missing_dir exp_dir w Hdir). unfold res, emitted; cbn [fst snd].
    split; [|intros Hz; discriminate Hz].
    intros z Hz. injection Hz as <-. split; [reflexivity|]. split; [reflexivity|].
    eexists seed_events, _. reflexivity.
Qed.

(** X12. [main] does not validate the checkpoint interval: with a
    recognized loss name, [SaveEvery = 0] and at least one epoch, it builds
    the model, the optimizer and the loader, trains the first epoch, writes
    that epoch's latest snapshot and then raises [ZeroDivisionError]; no
    checkpoint is written and the writer is never flushed. *)
Theorem zero_interval_config_raises exp_dir w specs c :
  exp_dir ∈ w_dirs w ->
  w_files w !! os_path_join exp_dir checkpoint_subdir = None ->
  w_files w !! os_path_join exp_dir evaluation_subdir = None ->
  w_files w !! os_path_join exp_dir "specs.json" = Some specs ->
  select_criterion (LossFunction specs) = Some c ->
  SaveEvery specs = 0 -> 1 <= Epochs specs ->
  let run := main exp_dir w in
  res run = Raise ZeroDivisionError /\
  List.filter is_construction (emitted run) =
    [ EvUnet2D 1 1; EvAdam (LearningRate specs);
      EvSkLoader (os_path_join (DataSource specs) "images")
                 (os_path_join (DataSource specs) "labels")
                 (BatchSize specs) (Debug specs) (NumDebug specs) ] /\
  List.filter is_save (emitted run) = [EvSaveLatest exp_dir 1] /\
  List.filter is_flush (emitted run) = [].
Proof.
  intros Hdir Hc He Hs Hsel Hk Hep. cbn zeta.
  rewrite (main_reaches_specs exp_dir w Hdir Hc He).
  rewrite main_load_cases. reduce_world. rewrite Hs.
  rewrite main_run_cases, Hsel. cbn zeta. rewrite Hk.
  rewrite train_run_zero by exact Hep.
  unfold res, emitted; cbn [fst snd].
  split; [reflexivity|].
  repeat split.
  - rewrite !List.filter_app, (filter_setup_events is_construction) by reflexivity.
    cbn [List.filter app seed_events is_construction].
    rewrite !List.filter_app.
    rewrite (filter_nil_Forall is_construction (epoch_events _ _ _ _ _ _)).
    + destruct c; reflexivity.
    + apply Forall_epoch_events.
      * unfold step_events. repeat (constructor; [reflexivity|]). constructor.
      * intros ev Hev _. destruct ev; try discriminate Hev; reflexivity.
      * reflexivity.
  - rewrite !List.filter_app, (filter_setup_events is_save) by reflexivity.
    cbn [List.filter app seed_events is_save].
    rewrite !List.filter_app, epoch_saves.
    destruct c; reflexivity.
  - rewrite !List.filter_app, (filter_setup_events is_flush) by reflexivity.
    cbn [List.filter app seed_events is_flush].
    rewrite !List.filter_app, epoch_flushes.
    destruct c; reflexivity.
Qed.

(** X13. [main] does not validate the epoch count either: with a
    recognized loss name and [Epochs < 1] it still builds the model, the
    optimizer, the loader and the writer, then trains nothing and saves
    nothing, flushes and returns [None]. *)
Theorem no_epochs_config_builds_and_returns exp_dir w specs c :
  exp_dir ∈ w_dirs w ->
  w_files w !! os_path_join exp_dir checkpoint_subdir = None ->
  w_files w !! os_path_join exp_dir evaluation_subdir = None ->
  w_files w !! os_path_join exp_dir "specs.json" = Some specs ->
  select_criterion (LossFunction specs) = Some c ->
  Epochs specs < 1 ->
  let run := main exp_dir w in
  res run = Ok RetNone /\
  emitted run =
    seed_events ++ setup_events exp_dir (w_dirs w) ++
    [EvOpen (os_path_join exp_dir "specs.json")] ++
    build_events specs ++ selection_events c ++ launch_events exp_dir specs ++
    [EvFlush].
Proof.
  intros Hdir Hc He Hs Hsel Hep. cbn zeta.
  rewrite (main_reaches_specs exp_dir w Hdir Hc He).
  rewrite main_load_cases. reduce_world. rewrite Hs.
  rewrite main_run_cases, Hsel. cbn zeta.
  rewrite train_run_empty by exact Hep.
  split; reflexivity.
Qed.

(** X14. The loss object [main] builds for the configured name is the one
    every training step evaluates: with "Dice" all criterion calls of the
    run are of [DiceLoss], with "BCE" all are of [BCEWithLogitsLoss]; no run
    mixes the two. *)
Theorem selected_criterion_is_used exp_dir w specs c :
  exp_dir ∈ w_dirs w ->
  w_files w !! os_path_join exp_dir checkpoint_subdir = None ->
  w_files w !! os_path_join exp_dir evaluation_subdir = None ->
  w_files w !! os_path_join exp_dir "specs.json" = Some specs ->
  select_criterion (LossFunction specs) = Some c ->
  let run := main exp_dir w in
  In (EvNewCriterion c) (emitted run) /\
  forall c', In c' (flat_map criterion_of (emitted run)) -> c' = c.
Proof.
  intros Hdir Hc He Hs Hsel. cbn zeta.
  rewrite (main_reaches_specs exp_dir w Hdir Hc He).
  rewrite main_load_cases. reduce_world. rewrite Hs.
  rewrite main_run_cases, Hsel. cbn zeta.
  set (setup := main_objects specs seeded).
  pose proof (Forall_train_events
                (fun ev => forall c', In c' (criterion_of ev) -> c' = c)
                (fst setup) (the_model (snd setup)) (the_optimizer (snd setup))
                c (Epochs specs) exp_dir (SaveEvery specs)
                (with_rng (the_rng (snd setup))
                   (with_dirs (dirs_after_setup exp_dir (w_dirs w)) (with_rng seeded w))))
    as Htrain.
  destruct (train _ _ _ _ _ _ _ _) as [[r w1] t].
  unfold emitted in *; cbn [snd] in *.
  split.
  - apply in_or_app. right. apply in_or_app. right. right.
    apply in_or_app. right. apply in_or_app. left. right. left. reflexivity.
  - intros c' Hin. apply List.in_flat_map in Hin. destruct Hin as (ev & Hev & Hc').
    revert c' Hc'.
    assert (Hall : Forall (fun ev => forall c', In c' (criterion_of ev) -> c' = c)
                     (seed_events ++ setup_events exp_dir (w_dirs w) ++
                      EvOpen (os_path_join exp_dir "specs.json") ::
                      build_events specs ++ selection_events c ++
                      launch_events exp_dir specs ++ t)).
    { apply Forall_app. split.
      { unfold seed_events. repeat (constructor; [intros ? []|]). constructor. }
      apply Forall_app. split.
      { apply Forall_makedirs; [intros ? ? []|].
        unfold setup_events. apply Forall_app.
        split; destruct (bool_decide _); repeat constructor. }
      constructor; [intros ? []|].
      apply Forall_app. split.
      { unfold build_events. repeat (constructor; [intros ? []|]). constructor. }
      apply Forall_app. split.
      { unfold selection_events. constructor; [intros ? []|].
        constructor; [|constructor]. intros c' [H|[]]. symmetry. exact H. }
      apply Forall_app. split.
      { unfold launch_events. repeat (constructor; [intros ? []|]). constructor. }
      apply Htrain.
      - apply List.Forall_forall. intros ev' Hin c' Hc'.
        assert (Hkind : criterion_of ev' = [] \/ criterion_of ev' = [c]).
        { unfold step_events in Hin. cbn [In] in Hin.
          repeat (destruct Hin as [Heq|Hin];
                  [subst ev'; first [left; reflexivity | right; reflexivity]|]).
          destruct Hin. }
        destruct Hkind as [Hkind|Hkind]; rewrite Hkind in Hc'.
        + destruct Hc'.
        + destruct Hc' as [Hc'|[]]. symmetry. exact Hc'.
      - intros ev' Ht Hs'. destruct ev'; try discriminate Ht; try discriminate Hs';
          intros ? [].
      - intros msg ? []. }
    apply (proj1 (List.Forall_forall _ _) Hall ev Hev).
Qed.

(** X15. The sentinel never reaches the shell: [main]'s caller drops what
    it returns, so a run stopped by a missing experiment directory or by an
    unrecognized loss name ends with exit status 0, its last act being the
    printed message. *)
Theorem reported_failures_exit_zero exp_dir w :
  exp_dir ∉ w_dirs w \/
  (exp_dir ∈ w_dirs w /\
   w_files w !! os_path_join exp_dir checkpoint_subdir = None /\
   w_files w !! os_path_join exp_dir evaluation_subdir = None /\
   exists specs,
     w_files w !! os_path_join exp_dir "specs.json" = Some specs /\
     select_criterion (LossFunction specs) = None) ->
  fst (fst (script exp_dir w)) = 0 /\
  exists before msg, snd (script exp_dir w) = before ++ [EvPrint msg].
Proof.
  intros [Hdir | (Hdir & Hc & He & specs & Hs & Hsel)]; unfold script.
  - rewrite (main_missing_dir exp_dir w Hdir). cbn [fst snd].
    split; [reflexivity|]. eexists seed_events, _. reflexivity.
  - rewrite (main_reaches_specs exp_dir w Hdir Hc He).
    rewrite main_load_cases. reduce_world. rewrite Hs.
    rewrite main_run_cases, Hsel. cbn [fst snd].
    split; [reflexivity|].
    exists (seed_events ++ setup_events exp_dir (w_dirs w) ++
            EvOpen (os_path_join exp_dir "specs.json") :: build_events specs).
    eexists. unfold unrecognized_message. flatten_lists. reflexivity.
Qed.

End MainMore.

(** ** The further properties on the concrete framework *)

Section OnBenchMore.
Import Bench.

(** A run with the interval 0: one epoch of three steps (losses 0.5, 0.5
    and 1.5, of which Dice stand-in 0.25, 0.25 and 1), then the raise. *)
Example bench_zero_interval_run :
  (res (train bench_loader bench_model bench_optimizer DiceLoss 3 "exp" 0 bare),
   List.filter (fun ev => negb (is_step_event ev))
     (emitted (train bench_loader bench_model bench_optimizer DiceLoss 3 "exp" 0 bare))) =
  (Raise ZeroDivisionError,
   [ EvNetTrain;
     EvAddScalar "Loss/overall" 2.5 1; EvAddScalar "Loss/dice" 1.5 1;
     EvAddScalar "Loss/focal" 1 1;
     EvPrint [Lit "Epoch:"; FmtInt 1; Lit " | Running Loss:"; FmtFloat 2.5];
     EvSaveLatest "exp" 1 ]).
Proof. vm_compute. reflexivity. Qed.

Lemma zero_interval_stops_after_first_epoch_witness :
  1 <= 3 /\
  res (train bench_loader bench_model bench_optimizer DiceLoss 3 "exp" 0 bare) =
    Raise ZeroDivisionError /\
  List.filter is_save
    (emitted (train bench_loader bench_model bench_optimizer DiceLoss 3 "exp" 0 bare)) =
    [EvSaveLatest "exp" 1].
Proof.
  split; [lia|].
  pose proof (zero_interval_stops_after_first_epoch bench_loader bench_model
                bench_optimizer DiceLoss 3 "exp" bare ltac:(lia))
    as (Hres & _ & Hsave & _).
  split; [exact Hres | exact Hsave].
Defined.

Lemma empty_epoch_reports_zero_witness :
  2 <> 0 /\ 1 <= 2 <= 2 /\
  epoch_batches empty_loader
    (epochs_flow empty_loader DiceLoss (range 1 2)
       (start bench_model bench_optimizer bare)) = [] /\
  List.filter (is_scalar_of 2)
    (emitted (train empty_loader bench_model bench_optimizer DiceLoss 2 "exp" 2 bare)) =
  [ EvAddScalar "Loss/overall" 0%float 2;
    EvAddScalar "Loss/dice" 0%float 2;
    EvAddScalar "Loss/focal" 0%float 2 ].
Proof.
  split; [lia|]. split; [lia|]. split; [reflexivity|].
  exact (empty_epoch_reports_zero empty_loader bench_model bench_optimizer DiceLoss
           2 "exp" 2 bare 2 ltac:(lia) ltac:(lia) eq_refl).
Defined.

Lemma one_update_per_batch_witness :
  2 <> 0 /\
  batches_seen bench_loader DiceLoss (range 1 (2 + 1))
    (start bench_model bench_optimizer bare) = 6%nat /\
  length (List.filter is_backward
            (emitted (train bench_loader bench_model bench_optimizer DiceLoss 2 "exp" 2 bare)))
    = 6%nat /\
  length (List.filter is_item
            (emitted (train bench_loader bench_model bench_optimizer DiceLoss 2 "exp" 2 bare)))
    = 18%nat.
Proof.
  split; [lia|].
  assert (Hn : batches_seen bench_loader DiceLoss (range 1 (2 + 1))
                 (start bench_model bench_optimizer bare) = 6%nat)
    by (vm_compute; reflexivity).
  split; [exact Hn|].
  pose proof (one_update_per_batch bench_loader bench_model bench_optimizer DiceLoss
                2 "exp" 2 bare ltac:(lia)) as (_ & _ & Hback & _ & Hitem).
  cbn zeta in Hback, Hitem. rewrite Hn in Hback, Hitem.
  split; [exact Hback | exact Hitem].
Defined.

Lemma checkpoint_directly_after_latest_witness :
  let t := emitted (train bench_loader bench_model bench_optimizer DiceLoss 2 "exp" 2 bare) in
  exists before,
    firstn (length t - 2) t = before ++ [EvSaveLatest "exp" 2].
Proof.
  cbn zeta.
  apply (checkpoint_directly_after_latest bench_loader bench_model bench_optimizer
           DiceLoss 2 "exp" 2 bare _ [EvFlush] "exp" 2).
  vm_compute. reflexivity.
Defined.

Lemma second_run_makes_no_directory_witness :
  ("exp" ∈ w_dirs (prepared "Dice")) /\
  List.filter is_makedirs (emitted (main "exp" (prepared "Dice"))) =
    [EvMakedirs "exp/checkpoints"; EvMakedirs "exp/evaluation"] /\
  List.filter is_makedirs
    (emitted (main "exp" (final (main "exp" (prepared "Dice"))))) = [].
Proof.
  assert (Hdir : "exp" ∈ w_dirs (prepared "Dice"))
    by (cbn; apply elem_of_singleton_2; reflexivity).
  split; [exact Hdir|]. split; [vm_compute; reflexivity|].
  exact (proj1 (second_run_makes_no_directory "exp" (prepared "Dice")
                  Hdir eq_refl eq_refl)).
Defined.

Lemma blocked_checkpoint_dir_raises_witness :
  ("exp" ∈ w_dirs blocked) /\
  ("exp/checkpoints" ∉ w_dirs blocked) /\
  is_Some (w_files blocked !! "exp/checkpoints") /\
  res (main "exp" blocked) = Raise FileExistsError.
Proof.
  assert (Hdir : "exp" ∈ w_dirs blocked)
    by (cbn; apply elem_of_singleton_2; reflexivity).
  assert (Hnot : os_path_join "exp" checkpoint_subdir ∉ w_dirs blocked).
  { cbn. intros Hin. apply elem_of_singleton_1 in Hin. discriminate Hin. }
  assert (Hfile : is_Some (w_files blocked !! os_path_join "exp" checkpoint_subdir))
    by (eexists; reflexivity).
  split; [exact Hdir|]. split; [exact Hnot|]. split; [exact Hfile|].
  rewrite (blocked_checkpoint_dir_raises "exp" blocked Hdir Hnot Hfile).
  reflexivity.
Defined.

Lemma main_return_values_witness :
  res (main "exp" bare) = Ok (RetInt 0) /\
  List.filter is_training (emitted (main "exp" bare)) = [] /\
  res (main "exp" (prepared "Dice")) = Ok RetNone /\
  exists before, emitted (main "exp" (prepared "Dice")) = before ++ [EvFlush].
Proof.
  assert (Hbare : res (main "exp" bare) = Ok (RetInt 0)) by (vm_compute; reflexivity).
  assert (Hdice : res (main "exp" (prepared "Dice")) = Ok RetNone)
    by (vm_compute; reflexivity).
  split; [exact Hbare|]. split.
  - exact (proj1 (proj2 (proj1 (main_return_values "exp" bare) 0 Hbare))).
  - split; [exact Hdice|].
    exact (proj2 (main_return_values "exp" (prepared "Dice")) Hdice).
Defined.

Lemma zero_interval_config_raises_witness :
  SaveEvery (specs_every 0) = 0 /\ 1 <= Epochs (specs_every 0) /\
  res (main "exp" (prepared_every 0)) = Raise ZeroDivisionError /\
  List.filter is_save (emitted (main "exp" (prepared_every 0))) = [EvSaveLatest "exp" 1].
Proof.
  split; [reflexivity|]. split; [cbn; lia|].
  assert (Hdir : "exp" ∈ w_dirs (prepared_every 0))
    by (cbn; apply elem_of_singleton_2; reflexivity).
  pose proof (zero_interval_config_raises "exp" (prepared_every 0) (specs_every 0)
                DiceLoss Hdir eq_refl eq_refl eq_refl eq_refl eq_refl ltac:(cbn; lia))
    as (Hres & _ & Hsave & _).
  split; [exact Hres | exact Hsave].
Defined.

Lemma no_epochs_config_builds_and_returns_witness :
  Epochs (with_epochs_zero) < 1 /\
  res (main "exp" prepared_no_epochs) = Ok RetNone /\
  List.filter is_save (emitted (main "exp" prepared_no_epochs)) = [].
Proof.
  split; [cbn; lia|].
  assert (Hdir : "exp" ∈ w_dirs prepared_no_epochs)
    by (cbn; apply elem_of_singleton_2; reflexivity).
  pose proof (no_epochs_config_builds_and_returns "exp" prepared_no_epochs
                with_epochs_zero BCEWithLogitsLoss Hdir eq_refl eq_refl eq_refl eq_refl
                ltac:(cbn; lia)) as (Hres & Hevents).
  split; [exact Hres|]. rewrite Hevents. vm_compute. reflexivity.
Defined.

Lemma selected_criterion_is_used_witness :
  select_criterion (LossFunction (specs "Dice")) = Some DiceLoss /\
  In (EvNewCriterion DiceLoss) (emitted (main "exp" (prepared "Dice"))) /\
  ~ In BCEWithLogitsLoss
      (flat_map criterion_of (emitted (main "exp" (prepared "Dice")))).
Proof.
  split; [reflexivity|].
  assert (Hdir : "exp" ∈ w_dirs (prepared "Dice"))
    by (cbn; apply elem_of_singleton_2; reflexivity).
  pose proof (selected_criterion_is_used "exp" (prepared "Dice") (specs "Dice") DiceLoss
                Hdir eq_refl eq_refl eq_refl eq_refl) as (Hnew & Hall).
  split; [exact Hnew|].
  intros Hin. specialize (Hall _ Hin). discriminate Hall.
Defined.

Lemma reported_failures_exit_zero_witness :
  ("exp" ∉ w_dirs bare) /\
  fst (fst (script "exp" bare)) = 0.
Proof.
  assert (H : "exp" ∉ w_dirs bare) by (cbn; apply not_elem_of_empty).
  split; [exact H|].
  exact (proj1 (reported_failures_exit_zero "exp" bare (or_introl H))).
Defined.

End OnBenchMore.
